(** * pyfastmem: the encrypted key-value store of [pyfastmem/storage.py]

    A shallow embedding of the two classes of [storage.py], [Storage] (the
    encryption vault) and [MemoryManager] (the key-to-blob index), and the
    properties of them that the specification states.

    Python objects are mutable and shared: a [MemoryManager] holds a
    reference to the [Storage] it was built with, and both act on one
    directory.  The embedding therefore threads one [World] through every
    method: the directory, the fields of the [Storage] and the fields of the
    [MemoryManager].  A method is a function from the world to an outcome
    (a value or a raised exception) and the world it leaves behind; what a
    method did before it raised stays done, as in Python. *)

From Stdlib Require Import Ascii ZArith.
From stdpp Require Import base option list strings gmap pretty.

Open Scope string_scope.
Set Warnings "-register-all".

(** * The model *)

(** ** Values, exceptions and outcomes *)

(** The values [json.loads] can return, floats apart: [None], [bool], [int],
    [str], [list] and [dict] with string keys. *)
Inductive value : Type :=
| PyNone
| PyBool (b : bool)
| PyInt (n : Z)
| PyStr (s : string)
| PyList (items : list value)
| PyDict (items : list (string * value)).

(** [type(v).__name__] *)
Definition type_name (v : value) : string :=
  match v with
  | PyNone => "NoneType"
  | PyBool _ => "bool"
  | PyInt _ => "int"
  | PyStr _ => "str"
  | PyList _ => "list"
  | PyDict _ => "dict"
  end.

(** [bool(v)], the truth value that [if v:] tests *)
Definition truthy (v : value) : bool :=
  match v with
  | PyNone => false
  | PyBool b => b
  | PyInt n => negb (n =? 0)%Z
  | PyStr s => negb (String.eqb s EmptyString)
  | PyList items => negb (bool_decide (items = []))
  | PyDict items => negb (bool_decide (items = []))
  end.

(** A Python dict has each key once. [well_formed] says so of the dicts of
    a value, at every depth. *)
Fixpoint well_formed (v : value) : Prop :=
  match v with
  | PyList items =>
      (fix all (l : list value) : Prop :=
         match l with
         | [] => True
         | x :: l' => well_formed x /\ all l'
         end) items
  | PyDict items =>
      NoDup items.*1 /\
      (fix all (l : list (string * value)) : Prop :=
         match l with
         | [] => True
         | kv :: l' => well_formed kv.2 /\ all l'
         end) items
  | _ => True
  end.

(** Induction on a value that reaches the items of lists and dicts. *)
Section value_induction.
Variable P : value -> Prop.
Hypothesis HNone : P PyNone.
Hypothesis HBool : forall b, P (PyBool b).
Hypothesis HInt : forall n, P (PyInt n).
Hypothesis HStr : forall s, P (PyStr s).
Hypothesis HList : forall items, Forall P items -> P (PyList items).
Hypothesis HDict :
  forall items, Forall (fun kv => P kv.2) items -> P (PyDict items).

Fixpoint value_nested_ind (v : value) : P v :=
  match v with
  | PyNone => HNone
  | PyBool b => HBool b
  | PyInt n => HInt n
  | PyStr s => HStr s
  | PyList items =>
      HList items
        ((fix go (l : list value) : Forall P l :=
            match l with
            | [] => @List.Forall_nil _ P
            | x :: l' => @List.Forall_cons _ P x l' (value_nested_ind x) (go l')
            end) items)
  | PyDict items =>
      HDict items
        ((fix go (l : list (string * value)) : Forall (fun kv => P kv.2) l :=
            match l with
            | [] => @List.Forall_nil _ _
            | kv :: l' =>
                @List.Forall_cons _ (fun kv => P kv.2) kv l'
                  (value_nested_ind kv.2) (go l')
            end) items)
  end.
End value_induction.

(** ** Objects

    [set] takes any object ([value: Any]). Among the objects that
    [json.dumps] accepts, some are not values of JSON: it writes a tuple as
    a list, and a dict key that is an integer as a string. Floats apart,
    and the keys that are floats, booleans or [None], these are the objects
    that [json.dumps] accepts. *)
Inductive dict_key : Type :=
| KeyStr (s : string)
| KeyInt (n : Z).

Inductive pyobject : Type :=
| ObjNone
| ObjBool (b : bool)
| ObjInt (n : Z)
| ObjStr (s : string)
| ObjList (items : list pyobject)
| ObjTuple (items : list pyobject)
| ObjDict (items : list (dict_key * pyobject)).

(** The key of a JSON object that [json.dumps] writes for a key of a dict:
    the string itself, the decimal digits of an integer. *)
Definition key_text (k : dict_key) : string :=
  match k with
  | KeyStr s => s
  | KeyInt n => pretty n
  end.

(** The value whose text [json.dumps] writes for an object. *)
Fixpoint to_json (obj : pyobject) : value :=
  match obj with
  | ObjNone => PyNone
  | ObjBool b => PyBool b
  | ObjInt n => PyInt n
  | ObjStr s => PyStr s
  | ObjList items | ObjTuple items => PyList (map to_json items)
  | ObjDict items =>
      PyDict (map (fun kv => (key_text kv.1, to_json kv.2)) items)
  end.

(** A value as the object it is: what [json.loads] returns holds lists and
    dicts with string keys only. *)
Fixpoint of_json (v : value) : pyobject :=
  match v with
  | PyNone => ObjNone
  | PyBool b => ObjBool b
  | PyInt n => ObjInt n
  | PyStr s => ObjStr s
  | PyList items => ObjList (map of_json items)
  | PyDict items => ObjDict (map (fun kv => (KeyStr kv.1, of_json kv.2)) items)
  end.



(** Induction on an object that reaches the items of lists, tuples and
    dicts. *)
Section pyobject_induction.
Variable Q : pyobject -> Prop.
Hypothesis HNone : Q ObjNone.
Hypothesis HBool : forall b, Q (ObjBool b).
Hypothesis HInt : forall n, Q (ObjInt n).
Hypothesis HStr : forall s, Q (ObjStr s).
Hypothesis HList : forall items, Forall Q items -> Q (ObjList items).
Hypothesis HTuple : forall items, Forall Q items -> Q (ObjTuple items).
Hypothesis HDict :
  forall items, Forall (fun kv => Q kv.2) items -> Q (ObjDict items).

End pyobject_induction.

(** The exception classes that [storage.py] raises or lets through, each
    with what [str(e)] needs. [InvalidToken] is raised by [Fernet.decrypt]
    without arguments. *)
Inductive exn : Type :=
| ValueError (msg : string)
| RuntimeError (msg : string)
| InvalidToken
| FileNotFoundError (filepath : string)
| JSONDecodeError (msg : string)
| AttributeError (msg : string)
| TypeError (msg : string).

(** [str(e)] *)
Definition str (e : exn) : string :=
  match e with
  | ValueError msg | RuntimeError msg | JSONDecodeError msg
  | AttributeError msg | TypeError msg => msg
  | InvalidToken => EmptyString
  | FileNotFoundError filepath =>
      "[Errno 2] No such file or directory: '" +:+ filepath +:+ "'"
  end.

Inductive result (A : Type) : Type :=
| Ok (a : A)
| Raise (e : exn).
Arguments Ok {A} a.
Arguments Raise {A} e.

(** The error kinds of the specification, as the exceptions that carry
    them in the code. *)
Definition MemoryLocked : exn := RuntimeError "Memory is locked".
Definition StorageLocked : exn := ValueError "Storage is locked".
Definition NotInitialized : exn := ValueError "No password set for this storage".
Definition AuthenticationFailed : exn := InvalidToken.
Definition ReadFailure (key : string) (cause : exn) : exn :=
  RuntimeError ("Failed to read key '" +:+ key +:+ "': " +:+ str cause).
Definition SnapshotNotFound (name : string) : exn :=
  ValueError ("No saved state found with name '" +:+ name +:+ "'").

(** ** The world *)

(** [files] is the file system, from path to contents; [path] and [_fernet]
    are the fields of the [Storage] ([_fernet] is the key the [Fernet] object
    was built from, [None] while there is none); [_memory] and [_locked] are
    the fields of the [MemoryManager], typed as the code annotates them
    ([Dict[str, str]] and a boolean). *)
Record World : Type := mkWorld {
  files : gmap string string;
  path : string;
  _fernet : option string;
  _memory : gmap string string;
  _locked : bool
}.

Definition with_files (fs : gmap string string) (w : World) : World :=
  mkWorld fs (path w) (_fernet w) (_memory w) (_locked w).
Definition with_fernet (k : option string) (w : World) : World :=
  mkWorld (files w) (path w) k (_memory w) (_locked w).
Definition with_memory (m : gmap string string) (w : World) : World :=
  mkWorld (files w) (path w) (_fernet w) m (_locked w).
Definition with_locked (b : bool) (w : World) : World :=
  mkWorld (files w) (path w) (_fernet w) (_memory w) b.

(** ** The monad of methods *)

Definition M (A : Type) : Type := World -> result A * World.

Definition ret {A} (a : A) : M A := fun w => (Ok a, w).
Definition raise {A} (e : exn) : M A := fun w => (Raise e, w).
Definition bind {A B} (m : M A) (k : A -> M B) : M B :=
  fun w => match m w with
           | (Ok a, w') => k a w'
           | (Raise e, w') => (Raise e, w')
           end.
(** [try: body except Exception as e: handler e] *)
Definition try_except {A} (body : M A) (handler : exn -> M A) : M A :=
  fun w => match body w with
           | (Ok a, w') => (Ok a, w')
           | (Raise e, w') => handler e w'
           end.
Definition gets {A} (f : World -> A) : M A := fun w => (Ok (f w), w).
Definition modify (f : World -> World) : M unit := fun w => (Ok tt, f w).

Declare Scope py_scope.
Delimit Scope py_scope with py.
Notation "x <- m ;; k" := (bind m (fun x => k))
  (at level 100, m at next level, right associativity) : py_scope.
Notation "m ;;; k" := (bind m (fun _ => k))
  (at level 100, right associativity) : py_scope.
Open Scope py_scope.

(** A method that can take the objects out of their annotated types. The
    world is typed, so it holds no image of what such a call leaves
    behind: the method is a partial function of the world, [None] where
    the code goes on with an object that the world cannot hold. *)
Definition P (A : Type) : Type := World -> option (result A * World).

Definition typed {A} (m : M A) : P A := fun w => Some (m w).
Definition untyped {A} : P A := fun _ => None.
Definition bind_P {A B} (m : P A) (k : A -> P B) : P B :=
  fun w => match m w with
           | Some (Ok a, w') => k a w'
           | Some (Raise e, w') => Some (Raise e, w')
           | None => None
           end.
Definition try_except_P {A} (body : P A) (handler : exn -> P A) : P A :=
  fun w => match body w with
           | Some (Ok a, w') => Some (Ok a, w')
           | Some (Raise e, w') => handler e w'
           | None => None
           end.

Declare Scope partial_scope.
Delimit Scope partial_scope with partial.
Notation "x <- m ;; k" := (bind_P m (fun x => k))
  (at level 100, m at next level, right associativity) : partial_scope.
Notation "m ;;; k" := (bind_P m (fun _ => k))
  (at level 100, right associativity) : partial_scope.

(** ** The file system *)

(** [os.path.join(a, b)] for a directory [a] without a trailing separator
    (what [os.path.abspath] returns) and a relative name [b]. *)
Definition os_path_join (a b : string) : string := a +:+ "/" +:+ b.

(** [os.path.exists] *)
Definition os_path_exists (filepath : string) : M bool :=
  gets (fun w => bool_decide (is_Some (files w !! filepath))).

(** [open(filepath, 'r').read()] *)
Definition read_file (filepath : string) : M string :=
  fun w => match files w !! filepath with
           | Some content => (Ok content, w)
           | None => (Raise (FileNotFoundError filepath), w)
           end.

(** [open(filepath, 'w').write(content)]: creates or replaces the file.
    The storage directory exists ([_ensure_storage_path]) and is taken to
    be writable. *)
Definition write_file (filepath content : string) : M unit :=
  modify (fun w => with_files (<[filepath := content]> (files w)) w).

(** [os.remove] *)
Definition os_remove (filepath : string) : M unit :=
  fun w => match files w !! filepath with
           | Some _ => (Ok tt, with_files (delete filepath (files w)) w)
           | None => (Raise (FileNotFoundError filepath), w)
           end.

(** The last character of a file name, which tells a blob file from a
    snapshot file. *)
Fixpoint last_char (s : string) : option ascii :=
  match s with
  | EmptyString => None
  | String c EmptyString => Some c
  | String _ s' => last_char s'
  end.


(** ** The libraries the code calls

    [storage.py] calls PBKDF2-HMAC-SHA256 and Fernet of [cryptography], and
    [json]. They are an interface here; [LibraryLaws] states what the store
    relies on.

    - [pbkdf2_hmac_sha256 password salt] is
      [base64.urlsafe_b64encode(kdf.derive(password.encode()))] for the
      [PBKDF2HMAC] built with SHA-256, length 32, that salt and 480000
      iterations.
    - [fernet_encrypt key entropy data] is [Fernet(key).encrypt(data)]; the
      token depends on a random IV and the clock, which [entropy] stands
      for. [fernet_decrypt key token] is [None] where [Fernet.decrypt]
      raises [InvalidToken].
    - [json_loads] returns [inl msg] where [json.loads] raises
      [JSONDecodeError]. *)
Class Library : Type := {
  pbkdf2_hmac_sha256 : string -> string -> string;
  fernet_encrypt : string -> string -> string -> string;
  fernet_decrypt : string -> string -> option string;
  json_dumps : value -> string;
  json_loads : string -> string + value
}.

Class LibraryLaws (L : Library) : Prop := {
  (** decryption under the key of encryption returns the data *)
  fernet_correct : forall key entropy data,
    fernet_decrypt key (fernet_encrypt key entropy data) = Some data;
  (** authenticated encryption: a token does not verify under another key *)
  fernet_authentic : forall key key' entropy data,
    key <> key' ->
    fernet_decrypt key' (fernet_encrypt key entropy data) = None;
  (** [json.loads(json.dumps(v)) == v] on the values of [value] *)
  json_roundtrip : forall v,
    well_formed v -> json_loads (json_dumps v) = inr v
}.

(** ** class Storage *)

Module Storage.
Section methods.
Context {L : Library}.

(** [salt] is the outcome of [secrets.token_bytes(16)]. *)
Definition set_password (password salt : string) : M unit :=
  let key := pbkdf2_hmac_sha256 password salt in
  modify (with_fernet (Some key));;;
  p <- gets path;;
  write_file (os_path_join p ".salt") salt.

Definition _load_salt : M string :=
  p <- gets path;;
  let salt_path := os_path_join p ".salt" in
  found <- os_path_exists salt_path;;
  if negb found
  then raise (ValueError "No password set for this storage")
  else read_file salt_path.

Definition unlock (password : string) : M bool :=
  try_except
    (salt <- _load_salt;;
     let key := pbkdf2_hmac_sha256 password salt in
     modify (with_fernet (Some key));;;
     ret true)
    (fun _ => ret false).

Definition encrypt (data entropy : string) : M string :=
  fernet <- gets _fernet;;
  match fernet with
  | None => raise (ValueError "Storage is locked")
  | Some key => ret (fernet_encrypt key entropy data)
  end.

Definition decrypt (token : string) : M string :=
  fernet <- gets _fernet;;
  match fernet with
  | None => raise (ValueError "Storage is locked")
  | Some key =>
      match fernet_decrypt key token with
      | Some data => ret data
      | None => raise InvalidToken
      end
  end.

End methods.
End Storage.

(** ** class MemoryManager *)

(** [for x in xs: body x] *)
Fixpoint for_each {A} (xs : list A) (body : A -> M unit) : M unit :=
  match xs with
  | [] => ret tt
  | x :: xs' => body x;;; for_each xs' body
  end.

(** [except OSError]: of the exceptions of the model, [FileNotFoundError]
    is the subclass of [OSError]. *)
Definition is_OSError (e : exn) : bool :=
  match e with FileNotFoundError _ => true | _ => false end.

(** [d.get(k, default)] on the items of a dict *)
Fixpoint dict_get (k : string) (items : list (string * value)) (default : value)
  : value :=
  match items with
  | [] => default
  | (k', v) :: items' => if String.eqb k k' then v else dict_get k items' default
  end.

(** The dict [self._memory] as a value, for [json.dump]. *)
Definition memory_dict (memory : gmap string string) : value :=
  PyDict ((fun kf => (kf.1, PyStr kf.2)) <$> map_to_list memory).

Definition filename_item (kv : string * value) : option (string * string) :=
  match kv.2 with PyStr filename => Some (kv.1, filename) | _ => None end.

(** A value read back as a [Dict[str, str]]; [None] for a value that is
    not of that type. *)
Definition as_memory (v : value) : option (gmap string string) :=
  match v with
  | PyDict items => list_to_map <$> mapM filename_item items
  | _ => None
  end.

Arguments memory_dict : simpl never.
Arguments as_memory : simpl never.

Module MemoryManager.
Section methods.
Context {L : Library}.

(** [MemoryManager(storage)] over a [Storage] and the file system it sees. *)
Definition __init__ (fs : gmap string string) (storage_path : string)
    (fernet : option string) : World :=
  mkWorld fs storage_path fernet ∅ false.

(** [token_hex] is the outcome of [secrets.token_hex(16)], [entropy] what
    [Fernet.encrypt] draws. *)
Definition set (key : string) (v : value) (token_hex entropy : string) : M unit :=
  locked <- gets _locked;;
  if locked : bool then raise (RuntimeError "Memory is locked") else
  let value_str := json_dumps v in
  encrypted <- Storage.encrypt value_str entropy;;
  let filename := token_hex +:+ ".dat" in
  p <- gets path;;
  let filepath := os_path_join p filename in
  write_file filepath encrypted;;;
  modify (fun w => with_memory (<[key := filename]> (_memory w)) w).


Definition get (key : string) (default : value) : M value :=
  memory <- gets _memory;;
  match memory !! key with
  | None => ret default
  | Some filename =>
      p <- gets path;;
      let filepath := os_path_join p filename in
      try_except
        (encrypted <- read_file filepath;;
         decrypted <- Storage.decrypt encrypted;;
         match json_loads decrypted with
         | inr v => ret v
         | inl msg => raise (JSONDecodeError msg)
         end)
        (fun e => raise (RuntimeError
           ("Failed to read key '" +:+ key +:+ "': " +:+ str e)))
  end.

Definition delete (key : string) : M bool :=
  memory <- gets _memory;;
  match memory !! key with
  | Some filename =>
      modify (fun w => with_memory (base.delete key (_memory w)) w);;;
      p <- gets path;;
      try_except
        (os_remove (os_path_join p filename);;; ret true)
        (fun e => if is_OSError e then ret false else raise e)
  | None => ret false
  end.

(** The loop visits [self._memory.values()]; each file is removed at most
    once and failures are passed over, so the order of the visit does not
    show in the outcome. *)
Definition clear : M unit :=
  locked <- gets _locked;;
  if locked : bool then raise (RuntimeError "Memory is locked") else
  memory <- gets _memory;;
  p <- gets path;;
  for_each (map_to_list memory).*2 (fun filename =>
    try_except
      (os_remove (os_path_join p filename))
      (fun e => if is_OSError e then ret tt else raise e));;;
  modify (with_memory ∅).

Definition lock : M unit := modify (with_locked true).

Definition unlock : M unit := modify (with_locked false).

Definition save (name : string) : M unit :=
  locked <- gets _locked;;
  if locked : bool then raise (RuntimeError "Memory is locked") else
  memory <- gets _memory;;
  let state := PyDict [("memory", memory_dict memory); ("locked", PyBool locked)] in
  p <- gets path;;
  let state_path := os_path_join p (name +:+ ".state") in
  write_file state_path (json_dumps state).

(** [load] installs whatever [json.load] returned, with no test of its
    type. Where the snapshot's ['memory'] is a dict of strings, as [save]
    writes it and the code annotates it, the world takes it. Where it is
    anything else, the typed world has no image of the index that the code
    goes on with, and [load] is undefined there. The code only ever tests
    [self._locked] for truth, so the world keeps the truth value of
    ['locked']. *)
Definition load (name : string) : P unit :=
  (locked <- typed (gets _locked);;
   if locked : bool then typed (raise (RuntimeError "Memory is locked")) else
   p <- typed (gets path);;
   let state_path := os_path_join p (name +:+ ".state") in
   try_except_P
     (text <- typed (read_file state_path);;
      match json_loads text with
      | inl msg => typed (raise (JSONDecodeError msg))
      | inr (PyDict items) =>
          match as_memory (dict_get "memory" items (PyDict [])) with
          | None => untyped
          | Some memory =>
              typed (modify (with_memory memory));;;
              typed (modify (with_locked
                       (truthy (dict_get "locked" items (PyBool false)))))
          end
      | inr state =>
          typed (raise (AttributeError
            ("'" +:+ type_name state +:+ "' object has no attribute 'get'")))
      end)
     (fun e => match e with
               | FileNotFoundError _ =>
                   typed (raise (ValueError
                     ("No saved state found with name '" +:+ name +:+ "'")))
               | _ => typed (raise e)
               end))%partial.

End methods.
End MemoryManager.

(** ** A reference library

    An instance of [Library] that meets [LibraryLaws], to run the store on
    concrete inputs. It is not the cryptography of the real library: a token
    carries the key it was made with in the clear, and unsealing compares
    it. The serialiser is a prefix code, not JSON text. *)

Module Reference.

(** [n] in unary, then [rest] *)
Fixpoint unary (n : nat) (rest : string) : string :=
  match n with
  | O => String "0"%char rest
  | S n' => String "1"%char (unary n' rest)
  end.

Fixpoint read_unary (s : string) : option (nat * string) :=
  match s with
  | String "0"%char rest => Some (O, rest)
  | String "1"%char s' =>
      match read_unary s' with
      | Some (n, rest) => Some (S n, rest)
      | None => None
      end
  | _ => None
  end.

Fixpoint split_at (n : nat) (s : string) : option (string * string) :=
  match n, s with
  | O, _ => Some (EmptyString, s)
  | S n', String c s' =>
      match split_at n' s' with
      | Some (a, b) => Some (String c a, b)
      | None => None
      end
  | S _, EmptyString => None
  end.

(** a string behind its length *)
Definition field (s rest : string) : string :=
  unary (String.length s) (s +:+ rest).

Definition read_field (s : string) : option (string * string) :=
  match read_unary s with
  | Some (n, rest) => split_at n rest
  | None => None
  end.

Fixpoint dumps_to (v : value) (rest : string) : string :=
  match v with
  | PyNone => String "n"%char rest
  | PyBool true => String "t"%char rest
  | PyBool false => String "f"%char rest
  | PyInt n =>
      String "i"%char (String (if (n <? 0)%Z then "-" else "+")%char
                         (unary (Z.abs_nat n) rest))
  | PyStr s => String "s"%char (field s rest)
  | PyList items =>
      String "["%char ((fix go (l : list value) : string :=
                     match l with
                     | [] => String "]"%char rest
                     | x :: l' => dumps_to x (go l')
                     end) items)
  | PyDict items =>
      String "{"%char ((fix go (l : list (string * value)) : string :=
                     match l with
                     | [] => String "}"%char rest
                     | (k, x) :: l' => field k (dumps_to x (go l'))
                     end) items)
  end.

Fixpoint loads_from (fuel : nat) (s : string) : option (value * string) :=
  match fuel with
  | O => None
  | S fuel' =>
      match s with
      | String "n"%char rest => Some (PyNone, rest)
      | String "t"%char rest => Some (PyBool true, rest)
      | String "f"%char rest => Some (PyBool false, rest)
      | String "i"%char (String "+"%char s') =>
          match read_unary s' with
          | Some (n, rest) => Some (PyInt (Z.of_nat n), rest)
          | None => None
          end
      | String "i"%char (String "-"%char s') =>
          match read_unary s' with
          | Some (n, rest) => Some (PyInt (- Z.of_nat n), rest)
          | None => None
          end
      | String "s"%char s' =>
          match read_field s' with
          | Some (x, rest) => Some (PyStr x, rest)
          | None => None
          end
      | String "["%char s' =>
          match items_from fuel' s' with
          | Some (items, rest) => Some (PyList items, rest)
          | None => None
          end
      | String "{"%char s' =>
          match entries_from fuel' s' with
          | Some (items, rest) => Some (PyDict items, rest)
          | None => None
          end
      | _ => None
      end
  end
with items_from (fuel : nat) (s : string) : option (list value * string) :=
  match fuel with
  | O => None
  | S fuel' =>
      match s with
      | EmptyString => None
      | String c rest =>
          if Ascii.eqb c "]" then Some ([], rest) else
          match loads_from fuel' s with
          | Some (x, s') =>
              match items_from fuel' s' with
              | Some (items, rest') => Some (x :: items, rest')
              | None => None
              end
          | None => None
          end
      end
  end
with entries_from (fuel : nat) (s : string)
  : option (list (string * value) * string) :=
  match fuel with
  | O => None
  | S fuel' =>
      match s with
      | EmptyString => None
      | String c rest =>
          if Ascii.eqb c "}" then Some ([], rest) else
          match read_field s with
          | Some (k, s') =>
              match loads_from fuel' s' with
              | Some (x, s'') =>
                  match entries_from fuel' s'' with
                  | Some (items, rest') => Some ((k, x) :: items, rest')
                  | None => None
                  end
              | None => None
              end
          | None => None
          end
      end
  end.

Definition dumps (v : value) : string := dumps_to v EmptyString.

Definition loads (s : string) : string + value :=
  match loads_from (2 * String.length s) s with
  | Some (v, EmptyString) => inr v
  | _ => inl "Expecting value"
  end.

(** a token: the key, the entropy, the data *)
Definition seal (key entropy data : string) : string :=
  field key (field entropy data).

Definition unseal (key token : string) : option string :=
  match read_field token with
  | Some (key', s') =>
      if String.eqb key key' then
        match read_field s' with
        | Some (_, data) => Some data
        | None => None
        end
      else None
  | None => None
  end.

Definition derive (password salt : string) : string :=
  field salt password.

#[export] Instance library : Library := {|
  pbkdf2_hmac_sha256 := derive;
  fernet_encrypt := seal;
  fernet_decrypt := unseal;
  json_dumps := dumps;
  json_loads := loads
|}.

(** the items of a list and of a dict, as [dumps_to] lays them out *)
Fixpoint dumps_items (l : list value) (rest : string) : string :=
  match l with
  | [] => String "]"%char rest
  | x :: l' => dumps_to x (dumps_items l' rest)
  end.

Fixpoint dumps_entries (l : list (string * value)) (rest : string) : string :=
  match l with
  | [] => String "}"%char rest
  | (k, x) :: l' => field k (dumps_to x (dumps_entries l' rest))
  end.

End Reference.

(** ** Runs of the store *)

(** The calls a client can make, with what the call draws at random. *)
Inductive call : Type :=
| call_set (key : string) (v : value) (token_hex entropy : string)
| call_get (key : string) (default : value)
| call_delete (key : string)
| call_clear
| call_lock
| call_unlock
| call_save (name : string)
| call_load (name : string)
| call_set_password (password salt : string)
| call_storage_unlock (password : string).

(** The world after a call, whether it returned or raised; none where
    [load] is undefined. *)
Definition after {L : Library} (c : call) (w : World) : option World :=
  match c with
  | call_set key v token_hex entropy =>
      Some (MemoryManager.set key v token_hex entropy w).2
  | call_get key default => Some (MemoryManager.get key default w).2
  | call_delete key => Some (MemoryManager.delete key w).2
  | call_clear => Some (MemoryManager.clear w).2
  | call_lock => Some (MemoryManager.lock w).2
  | call_unlock => Some (MemoryManager.unlock w).2
  | call_save name => Some (MemoryManager.save name w).2
  | call_load name => snd <$> MemoryManager.load name w
  | call_set_password password salt =>
      Some (Storage.set_password password salt w).2
  | call_storage_unlock password => Some (Storage.unlock password w).2
  end.

(** The blob identifier a call draws. *)
Definition drawn (c : call) : gset string :=
  match c with
  | call_set _ _ token_hex _ => {[ token_hex +:+ ".dat" ]}
  | _ => ∅
  end.

(** The blob identifiers a call takes out of the mapping by deletion:
    [delete] pops the identifier of its key, [clear] all of them. *)
Definition deleted (c : call) (w : World) : gset string :=
  match c with
  | call_delete key =>
      match _memory w !! key with Some filename => {[ filename ]} | None => ∅ end
  | call_clear => if _locked w then ∅ else map_img (_memory w)
  | _ => ∅
  end.

(** A random identifier is fresh: it is none of the identifiers known so
    far, those drawn earlier in the run and those the snapshots of the
    directory mention. *)
Definition fresh (known : gset string) (c : call) : Prop :=
  match c with
  | call_set _ _ token_hex _ => (token_hex +:+ ".dat") ∉ known
  | _ => True
  end.

Definition one_key_per_blob (memory : gmap string string) : Prop :=
  forall k1 k2 filename,
    memory !! k1 = Some filename -> memory !! k2 = Some filename -> k1 = k2.

(** Every snapshot in the directory that holds a dict holds, as ['memory'],
    a mapping from keys to identifiers, as [save] writes it, with one key
    per blob, over known identifiers. *)
Definition snapshots_sound {L : Library} (known : gset string) (w : World) : Prop :=
  forall name text items,
    files w !! os_path_join (path w) (name +:+ ".state") = Some text ->
    json_loads text = inr (PyDict items) ->
    exists memory,
      as_memory (dict_get "memory" items (PyDict [])) = Some memory /\
      one_key_per_blob memory /\
      (forall k filename, memory !! k = Some filename -> filename ∈ known).

(** A run starts from a [MemoryManager] as its constructor leaves it. *)
Definition initial {L : Library} (known : gset string) (w : World) : Prop :=
  _memory w = ∅ /\ _locked w = false /\ snapshots_sound known w.

(** [run w0 known0 known removed w]: calls made from [w0] lead to [w];
    [known] are the identifiers known by then and [removed] those that
    deletions took out of the mapping on the way. *)
Inductive run {L : Library} (w0 : World) (known0 : gset string)
  : gset string -> gset string -> World -> Prop :=
| run_start : run w0 known0 known0 ∅ w0
| run_call known removed w c w' :
    run w0 known0 known removed w ->
    fresh known c ->
    after c w = Some w' ->
    run w0 known0 (known ∪ drawn c) (removed ∪ deleted c w) w'.

Definition index_inv {L : Library} (known removed : gset string) (w : World)
  : Prop :=
  one_key_per_blob (_memory w) /\
  (forall k filename, _memory w !! k = Some filename -> filename ∈ known) /\
  removed ⊆ known /\
  snapshots_sound known w.

(** ** The store on concrete inputs *)

Module Scenario.

Definition token1 : string := "0f1e2d3c4b5a69788796a5b4c3d2e1f0".
Definition token2 : string := "aabbccddeeff00112233445566778899".
Definition salt : string := "0123456789abcdef".

(** a new storage directory and a new [MemoryManager] over it *)
Definition empty_store : World := MemoryManager.__init__ ∅ "/vault" None.

(** after [set_password("correct horse")] *)
Definition opened : World :=
  (Storage.set_password (L := Reference.library) "correct horse" salt
     empty_store).2.

(** after [set("a", 42)] *)
Definition with_a : World :=
  (MemoryManager.set (L := Reference.library) "a" (PyInt 42) token1 "iv1"
     opened).2.

(** after [unlock("wrong horse")] on the vault *)
Definition reopened_wrong : World :=
  (Storage.unlock (L := Reference.library) "wrong horse" with_a).2.

(** the blob of ["a"] is gone from the directory *)
Definition blob_lost : World :=
  with_files (delete "/vault/0f1e2d3c4b5a69788796a5b4c3d2e1f0.dat"
                (files with_a)) with_a.

(** the blob of ["a"] holds a token whose text is not JSON *)
Definition blob_not_json : World :=
  with_files (<["/vault/0f1e2d3c4b5a69788796a5b4c3d2e1f0.dat" :=
                Reference.seal (Reference.derive "correct horse" salt) "iv" "?"]>
              (files with_a)) with_a.

End Scenario.

(** ** cli.py

    Every command builds its own [Storage] and [MemoryManager] over the
    directory, calls them, reports with [click.echo] and leaves with
    [sys.exit]. A command is a function of the process: the world and what
    was written to the terminal so far. The directory named on the command
    line exists (click checks it) and is given resolved, as
    [Path.resolve] returns it. *)

(** What a command writes: [click.echo(text, err=err)], and the questions
    of [click.prompt] and [click.confirm]. *)
Inductive event : Type :=
| Echo (err : bool) (text : string)
| Prompt (text : string).

(** A call returns, raises an exception, or raises [SystemExit], which is
    no [Exception] and passes through [except Exception]. *)
Inductive outcome (A : Type) : Type :=
| Returned (a : A)
| Raised (e : exn)
| Exited (code : Z).
Arguments Returned {A} a.
Arguments Raised {A} e.
Arguments Exited {A} code.

Record Process : Type := mkProcess {
  world : World;
  events : list event
}.

Definition C (A : Type) : Type := Process -> outcome A * Process.

Definition returned {A} (a : A) : C A := fun p => (Returned a, p).
Definition raised {A} (e : exn) : C A := fun p => (Raised e, p).
Definition then_ {A B} (m : C A) (k : A -> C B) : C B :=
  fun p => match m p with
           | (Returned a, p') => k a p'
           | (Raised e, p') => (Raised e, p')
           | (Exited code, p') => (Exited code, p')
           end.

(** a method of the store, called from a command *)
Definition call_method {A} (m : M A) : C A :=
  fun p => match m (world p) with
           | (Ok a, w') => (Returned a, mkProcess w' (events p))
           | (Raise e, w') => (Raised e, mkProcess w' (events p))
           end.

(** [try: body except Exception as e: handler e] in a command *)
Definition except_Exception {A} (body : C A) (handler : exn -> C A) : C A :=
  fun p => match body p with
           | (Raised e, p') => handler e p'
           | other => other
           end.

Definition echo (err : bool) (text : string) : C unit :=
  fun p => (Returned tt, mkProcess (world p) (events p ++ [Echo err text])).

(** [click.prompt(text, hide_input=True)]; [typed] is what the user types. *)
Definition prompt (text typed : string) : C string :=
  fun p => (Returned typed, mkProcess (world p) (events p ++ [Prompt text])).

(** [click.confirm(text)]; [answer] is what the user answers. *)
Definition confirm (text : string) (answer : bool) : C bool :=
  fun p => (Returned answer, mkProcess (world p) (events p ++ [Prompt text])).

Definition sys_exit {A} (code : Z) : C A := fun p => (Exited code, p).

(** The status the process ends with: 0 when the command returns. *)
Definition exit_status {A} (o : outcome A) : Z :=
  match o with
  | Returned _ => 0
  | Raised _ => 1
  | Exited code => code
  end.

Declare Scope cli_scope.
Delimit Scope cli_scope with cli.
Notation "x <- m ;; k" := (then_ m (fun x => k))
  (at level 100, m at next level, right associativity) : cli_scope.
Notation "m ;;; k" := (then_ m (fun _ => k))
  (at level 100, right associativity) : cli_scope.

(** [needle in hay] for strings *)
Fixpoint contains (needle hay : string) : bool :=
  if String.prefix needle hay then true
  else match hay with
       | EmptyString => false
       | String _ hay' => contains needle hay'
       end.

(** [except ValueError]: [json.JSONDecodeError] is a subclass of
    [ValueError]. *)
Definition is_ValueError (e : exn) : bool :=
  match e with ValueError _ | JSONDecodeError _ => true | _ => false end.

(** What the commands print of a value: [str(value)] in an f-string and
    [json.dumps(value, indent=2)]. *)
Class Formatting : Type := {
  py_str : value -> string;
  json_dumps_indent : value -> string
}.

Module Cli.
Section commands.
Context {L : Library} {F : Formatting}.
#[local] Open Scope cli_scope.

(** [Storage(name, path)] for the resolved directory: a [Storage] without
    a key. The directory exists, so [_ensure_storage_path] changes
    nothing. *)
Definition _load_storage (storage_path : string) : C unit :=
  fun p => (Returned tt,
            mkProcess (mkWorld (files (world p)) storage_path None
                         (_memory (world p)) (_locked (world p)))
                      (events p)).

(** [MemoryManager(storage)] *)
Definition new_MemoryManager : C unit :=
  fun p => (Returned tt,
            mkProcess (with_locked false (with_memory ∅ (world p))) (events p)).

Definition _unlock_if_needed (typed : string) : C unit :=
  except_Exception
    (call_method (MemoryManager.get "__test_key" PyNone);;; returned tt)
    (fun e =>
       if is_ValueError e then
         if contains "Storage is locked" (str e) then
           password <- prompt "Enter password" typed;;
           ok <- call_method (Storage.unlock password);;
           if negb ok
           then echo true "Invalid password";;; sys_exit 1
           else returned tt
         else raised e
       else raised e).

(** [token_hex] and [entropy] are what [MemoryManager.set] draws. *)
Definition set_value (storage_path key value_text typed token_hex entropy : string)
  : C unit :=
  except_Exception
    (_load_storage storage_path;;;
     new_MemoryManager;;;
     _unlock_if_needed typed;;;
     let v := match json_loads value_text with
              | inr v => v
              | inl _ => PyStr value_text
              end in
     call_method (MemoryManager.set key v token_hex entropy);;;
     echo false ("Set " +:+ key +:+ " = " +:+ py_str v))
    (fun e => echo true ("Error: " +:+ str e);;; sys_exit 1).

Definition get_value (storage_path key typed : string) : C unit :=
  except_Exception
    (_load_storage storage_path;;;
     new_MemoryManager;;;
     _unlock_if_needed typed;;;
     v <- call_method (MemoryManager.get key PyNone);;
     match v with
     | PyNone => echo true ("Key '" +:+ key +:+ "' not found");;; sys_exit 1
     | _ => echo false (json_dumps_indent v)
     end)
    (fun e => echo true ("Error: " +:+ str e);;; sys_exit 1).

Definition delete (storage_path key typed : string) : C unit :=
  except_Exception
    (_load_storage storage_path;;;
     new_MemoryManager;;;
     _unlock_if_needed typed;;;
     found <- call_method (MemoryManager.delete key);;
     if found : bool
     then echo false ("Deleted key: " +:+ key)
     else echo true ("Key '" +:+ key +:+ "' not found");;; sys_exit 1)
    (fun e => echo true ("Error: " +:+ str e);;; sys_exit 1).

Definition clear (storage_path : string) (yes answer : bool) (typed : string)
  : C unit :=
  except_Exception
    (refused <- (if yes then returned false
                 else ok <- confirm "Are you sure you want to clear all data?"
                              answer;;
                      returned (negb ok));;
     if refused : bool then returned tt else
     _load_storage storage_path;;;
     new_MemoryManager;;;
     _unlock_if_needed typed;;;
     call_method MemoryManager.clear;;;
     echo false "Cleared all data")
    (fun e => echo true ("Error: " +:+ str e);;; sys_exit 1).

(** [salt] is what [Storage.set_password] draws. *)
Definition set_password (storage_path password salt : string) : C unit :=
  except_Exception
    (_load_storage storage_path;;;
     call_method (Storage.set_password password salt);;;
     echo false "Password set successfully")
    (fun e => echo true ("Error: " +:+ str e);;; sys_exit 1).

End commands.
End Cli.

(** ** More concrete inputs *)

Module Scenario2.
Import Scenario.

Definition salt2 : string := "fedcba9876543210".

(** after [set("b", [1, 2])] in [with_a] *)
Definition with_ab : World :=
  (MemoryManager.set (L := Reference.library) "b"
     (PyList [PyInt 1; PyInt 2]) token2 "iv2" with_a).2.

(** [with_a] with a snapshot file that is not JSON, and with one that
    holds [null] *)
Definition snapshot_not_json : World :=
  with_files (<["/vault/s.state" := "?"]> (files with_a)) with_a.

Definition snapshot_null : World :=
  with_files (<["/vault/s.state" := Reference.dumps PyNone]> (files with_a))
    with_a.

End Scenario2.

(** * Properties *)

(** ** File names *)

Lemma os_path_join_inj p a b : os_path_join p a = os_path_join p b -> a = b.
Proof.
  unfold os_path_join. intros H.
  apply (inj (String.app p)) in H. by simplify_eq/=.
Qed.

Lemma string_app_cons c (s t : string) : String c s +:+ t = String c (s +:+ t).
Proof. reflexivity. Qed.

Lemma string_app_nil (t : string) : EmptyString +:+ t = t.
Proof. reflexivity. Qed.

Lemma string_length_app (s t : string) :
  String.length (s +:+ t) = String.length s + String.length t.
Proof.
  induction s as [|c s IH]; [done|].
  rewrite string_app_cons. simpl. by rewrite IH.
Qed.

Lemma string_app_eq_nil (s t : string) :
  s +:+ t = EmptyString -> t = EmptyString.
Proof. destruct s; [done|]. rewrite string_app_cons. discriminate. Qed.

Lemma last_char_app (s t : string) :
  t <> EmptyString -> last_char (s +:+ t) = last_char t.
Proof.
  intros Ht. induction s as [|c s IH]; [done|].
  rewrite string_app_cons. rewrite <- IH. simpl.
  destruct (s +:+ t) eqn:E; [|done].
  by apply string_app_eq_nil in E.
Qed.

Lemma last_char_join p name ext :
  ext <> EmptyString ->
  last_char (os_path_join p (name +:+ ext)) = last_char ext.
Proof.
  intros Hext. unfold os_path_join.
  rewrite !last_char_app; [done..| |].
  - intros E. by apply string_app_eq_nil in E.
  - intros E. by apply string_app_eq_nil, string_app_eq_nil in E.
Qed.

(** A blob file is never a snapshot file, and neither is the salt file. *)
Lemma dat_ne_state p token_hex name :
  os_path_join p (token_hex +:+ ".dat") <> os_path_join p (name +:+ ".state").
Proof.
  intros H. apply (f_equal last_char) in H.
  rewrite !last_char_join in H by discriminate. discriminate.
Qed.

Lemma salt_ne_state p name :
  os_path_join p ".salt" <> os_path_join p (name +:+ ".state").
Proof.
  intros H. apply (f_equal last_char) in H.
  rewrite last_char_join in H by discriminate.
  change ".salt" with (EmptyString +:+ ".salt") in H.
  rewrite last_char_join in H by discriminate. discriminate.
Qed.

Lemma dat_ne_salt p token_hex :
  os_path_join p (token_hex +:+ ".dat") <> os_path_join p ".salt".
Proof.
  intros H%os_path_join_inj.
  pose proof (f_equal String.length H) as Hlen.
  rewrite string_length_app in Hlen. simpl in Hlen.
  destruct token_hex as [|c [|c' s]]; simpl in Hlen; try lia.
  rewrite string_app_cons, string_app_nil in H. discriminate.
Qed.

(** ** Running a method *)

Ltac run_methods :=
  unfold MemoryManager.set, MemoryManager.get, MemoryManager.delete,
    MemoryManager.clear, MemoryManager.lock, MemoryManager.unlock,
    MemoryManager.save, MemoryManager.load,
    Storage.set_password, Storage.unlock, Storage._load_salt,
    Storage.encrypt, Storage.decrypt,
    bind_P, try_except_P, typed, untyped,
    bind, ret, raise, gets, modify, try_except,
    read_file, write_file, os_remove, os_path_exists,
    with_files, with_fernet, with_memory, with_locked; simpl.

(** Case analysis on what the code branches on, innermost test first. *)
Ltac inner_case :=
  match goal with
  | |- context [match ?x with _ => _ end] =>
      lazymatch x with
      | context [match _ with _ => _ end] => fail
      | _ => destruct x eqn:?
      end
  end.

Ltac run_cases := run_methods; repeat (inner_case; simplify_eq/=).

(** ** The lock flag *)

Section lock_flag.
Context {L : Library}.

Lemma locked_set_refused w key v token_hex entropy :
  _locked w = true ->
  MemoryManager.set key v token_hex entropy w = (Raise MemoryLocked, w).
Proof. intros H. run_methods. by rewrite H. Qed.

Lemma locked_clear_refused w :
  _locked w = true -> MemoryManager.clear w = (Raise MemoryLocked, w).
Proof. intros H. run_methods. by rewrite H. Qed.

Lemma locked_save_refused w name :
  _locked w = true -> MemoryManager.save name w = (Raise MemoryLocked, w).
Proof. intros H. run_methods. by rewrite H. Qed.

Lemma locked_load_refused w name :
  _locked w = true ->
  MemoryManager.load name w = Some (Raise MemoryLocked, w).
Proof. intros H. run_methods. by rewrite H. Qed.

(** [get] never looks at the flag: it does in a locked world what it does
    in the same world unlocked, and changes neither. *)
Lemma get_ignores_lock w key default b :
  MemoryManager.get key default (with_locked b w)
  = ((MemoryManager.get key default w).1,
     with_locked b (MemoryManager.get key default w).2).
Proof.
  run_cases; congruence.
Qed.

Lemma get_keeps_world w key default :
  (MemoryManager.get key default w).2 = w.
Proof.
  run_cases; congruence.
Qed.

Lemma lock_locks w :
  MemoryManager.lock w = (Ok tt, with_locked true w).
Proof. done. Qed.

Lemma unlock_unlocks w :
  MemoryManager.unlock w = (Ok tt, with_locked false w).
Proof. done. Qed.

End lock_flag.

(** C1. The specification has every operation but [get] refused in a
    locked index. The code checks the flag in [set], [clear], [save] and
    [load] (the lemmas above) and not in [delete]: in a locked index
    [delete] of a mapped key returns a boolean instead of raising, and the
    entry is gone from the mapping. *)
Theorem locked_delete_not_refused w key filename :
  _locked w = true ->
  _memory w !! key = Some filename ->
  exists b w',
    MemoryManager.delete key w = (Ok b, w') /\
    _locked w' = true /\
    _memory w' = delete key (_memory w) /\
    _memory w' <> _memory w.
Proof.
  intros Hlocked Hkey.
  assert (delete key (_memory w) <> _memory w) as Hne.
  { intros E. apply (f_equal (fun m => m !! key)) in E.
    rewrite lookup_delete_eq, Hkey in E. discriminate. }
  run_methods. rewrite Hkey.
  destruct (files w !! _); simpl; eauto 10.
Qed.

(** ** get, set and delete *)

(** C6. A key that is not mapped yields the default. For a mapped key,
    each way the blob can fail to come back (the file is missing, the vault
    holds no key, the token does not verify, the text is not JSON) raises
    the [RuntimeError] that names the key, and only a blob that was read,
    decrypted and parsed yields a value. *)
Theorem get_spec {L : Library} w key default :
  (_memory w !! key = None ->
     MemoryManager.get key default w = (Ok default, w)) /\
  (forall filename, _memory w !! key = Some filename ->
     let filepath := os_path_join (path w) filename in
     (files w !! filepath = None ->
        MemoryManager.get key default w
        = (Raise (ReadFailure key (FileNotFoundError filepath)), w)) /\
     (forall token, files w !! filepath = Some token ->
        _fernet w = None ->
        MemoryManager.get key default w
        = (Raise (ReadFailure key StorageLocked), w)) /\
     (forall token k, files w !! filepath = Some token ->
        _fernet w = Some k ->
        fernet_decrypt k token = None ->
        MemoryManager.get key default w
        = (Raise (ReadFailure key AuthenticationFailed), w)) /\
     (forall token k data msg, files w !! filepath = Some token ->
        _fernet w = Some k ->
        fernet_decrypt k token = Some data ->
        json_loads data = inl msg ->
        MemoryManager.get key default w
        = (Raise (ReadFailure key (JSONDecodeError msg)), w)) /\
     (forall token k data v, files w !! filepath = Some token ->
        _fernet w = Some k ->
        fernet_decrypt k token = Some data ->
        json_loads data = inr v ->
        MemoryManager.get key default w = (Ok v, w))).
Proof.
  split; [intros H; run_methods; by rewrite H|].
  intros filename H filepath. subst filepath.
  repeat split; intros; run_methods; rewrite H;
    repeat match goal with E : _ = _ |- _ => rewrite E; simpl end; done.
Qed.

(** C7. [delete] of an unmapped key returns false. For a mapped key the
    entry leaves the mapping whether or not the file can be removed; the
    outcome is true when the file was there and false when it was not, and
    in both cases a later [get] of the key yields the default. *)
Theorem delete_spec {L : Library} w key :
  (_memory w !! key = None -> MemoryManager.delete key w = (Ok false, w)) /\
  (forall filename, _memory w !! key = Some filename ->
     let filepath := os_path_join (path w) filename in
     let popped := with_memory (delete key (_memory w)) w in
     (is_Some (files w !! filepath) ->
        MemoryManager.delete key w
        = (Ok true, with_files (delete filepath (files w)) popped)) /\
     (files w !! filepath = None ->
        MemoryManager.delete key w = (Ok false, popped)) /\
     (forall default,
        MemoryManager.get key default (MemoryManager.delete key w).2
        = (Ok default, (MemoryManager.delete key w).2))).
Proof.
  split.
  - intros H. run_methods. by rewrite H.
  - intros filename H filepath popped. subst filepath popped.
    split; [|split].
    + intros [c Hc]. run_methods. by rewrite H, Hc.
    + intros Hc. run_methods. by rewrite H, Hc.
    + intros default. run_methods. rewrite H.
      destruct (files w !! _) eqn:E; simpl; by rewrite lookup_delete_eq.
Qed.

(** C10. With the index unlocked and no key in the vault, [set] raises
    the vault's locked error and the world is as before: the mapping and
    every file. More generally a [set] that raises has changed nothing. *)
Theorem set_without_key_changes_nothing {L : Library}
    w key v token_hex entropy :
  (_locked w = false -> _fernet w = None ->
     MemoryManager.set key v token_hex entropy w = (Raise StorageLocked, w)) /\
  (forall e w', MemoryManager.set key v token_hex entropy w = (Raise e, w') ->
     w' = w).
Proof.
  split.
  - intros H1 H2. run_methods. by rewrite H1, H2.
  - intros e w'. run_cases; congruence.
Qed.

(** A value is the value of the object it is. *)
Lemma to_json_of_json v : to_json (of_json v) = v.
Proof.
  induction v as [| | | |items IH|items IH] using value_nested_ind;
    simpl; try done; f_equal.
  - induction IH as [|x l Hx _ IHl]; simpl; [done|]. by rewrite Hx, IHl.
  - induction IH as [|[k x] l Hx _ IHl]; simpl in *; [done|].
    by rewrite Hx, IHl.
Qed.



(** ** The reference library meets the laws *)

Module ReferenceLaws.
Import Reference.

Lemma read_unary_unary n rest : read_unary (unary n rest) = Some (n, rest).
Proof. induction n as [|n IH]; simpl; [done|]. by rewrite IH. Qed.

Lemma split_at_app s rest :
  split_at (String.length s) (s +:+ rest) = Some (s, rest).
Proof.
  induction s as [|c s IH]; [done|].
  rewrite string_app_cons. simpl. by rewrite IH.
Qed.

Lemma read_field_field s rest : read_field (field s rest) = Some (s, rest).
Proof.
  unfold read_field, field. rewrite read_unary_unary. apply split_at_app.
Qed.

Lemma unseal_seal key entropy data :
  unseal key (seal key entropy data) = Some data.
Proof.
  unfold unseal, seal. rewrite read_field_field, String.eqb_refl.
  by rewrite read_field_field.
Qed.

Lemma unseal_other_key key key' entropy data :
  key <> key' -> unseal key' (seal key entropy data) = None.
Proof.
  intros Hne. unfold unseal, seal. rewrite read_field_field.
  destruct (String.eqb_spec key' key); [congruence|done].
Qed.

Lemma length_unary n rest :
  String.length (unary n rest) = S (n + String.length rest).
Proof. induction n as [|n IH]; simpl; [done|]. by rewrite IH. Qed.

Lemma length_field s rest :
  String.length rest < String.length (field s rest).
Proof.
  unfold field. rewrite length_unary, string_length_app. lia.
Qed.

Lemma dumps_to_list items rest :
  dumps_to (PyList items) rest = String "["%char (dumps_items items rest).
Proof. simpl. f_equal. induction items as [|x l IH]; simpl; congruence. Qed.

Lemma dumps_to_dict items rest :
  dumps_to (PyDict items) rest = String "{"%char (dumps_entries items rest).
Proof.
  simpl. f_equal. induction items as [|[k x] l IH]; simpl; congruence.
Qed.

Lemma length_dumps_to v :
  forall rest, String.length rest < String.length (dumps_to v rest).
Proof.
  induction v as [|b|n|s|items IH|items IH] using value_nested_ind; intros rest.
  - simpl. lia.
  - destruct b; simpl; lia.
  - simpl. rewrite length_unary. lia.
  - simpl. pose proof (length_field s rest). lia.
  - rewrite dumps_to_list. simpl.
    enough (String.length rest < String.length (dumps_items items rest)) by lia.
    induction IH as [|x l Hx _ IHl]; simpl; [lia|].
    specialize (Hx (dumps_items l rest)). lia.
  - rewrite dumps_to_dict. simpl.
    enough (String.length rest < String.length (dumps_entries items rest)) by lia.
    induction IH as [|[k x] l Hx _ IHl]; simpl; [lia|].
    specialize (Hx (dumps_entries l rest)). simpl in Hx.
    pose proof (length_field k (dumps_to x (dumps_entries l rest))). lia.
Qed.

(** The first character of a serialised value is none of the closing
    brackets, and the first of a field is not a closing brace. *)
Lemma dumps_to_head v rest :
  exists c s, dumps_to v rest = String c s /\ c <> "]"%char.
Proof.
  destruct v as [|[]|n|s|items|items]; simpl; eexists _, _; split; done.
Qed.

Lemma field_head k rest :
  exists c s, field k rest = String c s /\ c <> "}"%char.
Proof.
  unfold field. destruct (String.length k); simpl; eexists _, _; split; done.
Qed.

Lemma items_from_dumps_items items :
  Forall (fun x => forall rest fuel,
            2 * (String.length (dumps_to x rest) - String.length rest) <= fuel ->
            loads_from fuel (dumps_to x rest) = Some (x, rest)) items ->
  forall rest fuel,
    2 * (String.length (dumps_items items rest) - String.length rest) - 1 <= fuel ->
    items_from fuel (dumps_items items rest) = Some (items, rest).
Proof.
  induction 1 as [|x l Hx _ IHl]; intros rest fuel Hfuel.
  - simpl in *. destruct fuel as [|fuel]; [lia|]. done.
  - simpl in *.
    pose proof (length_dumps_to x (dumps_items l rest)) as Lx.
    assert (String.length rest < String.length (dumps_items l rest)) as Ll.
    { clear. induction l as [|y l IH]; simpl; [lia|].
      pose proof (length_dumps_to y (dumps_items l rest)). lia. }
    destruct fuel as [|fuel]; [lia|].
    destruct (dumps_to_head x (dumps_items l rest)) as (c & s & E & Hc).
    simpl. rewrite E.
    destruct (Ascii.eqb_spec c "]"); [done|]. rewrite <- E.
    rewrite Hx by lia. rewrite IHl by lia. done.
Qed.

Lemma entries_from_dumps_entries items :
  Forall (fun kv => forall rest fuel,
            2 * (String.length (dumps_to kv.2 rest) - String.length rest) <= fuel ->
            loads_from fuel (dumps_to kv.2 rest) = Some (kv.2, rest)) items ->
  forall rest fuel,
    2 * (String.length (dumps_entries items rest) - String.length rest) - 1 <= fuel ->
    entries_from fuel (dumps_entries items rest) = Some (items, rest).
Proof.
  induction 1 as [|[k x] l Hx _ IHl]; intros rest fuel Hfuel.
  - simpl in *. destruct fuel as [|fuel]; [lia|]. done.
  - simpl in *.
    pose proof (length_dumps_to x (dumps_entries l rest)) as Lx.
    pose proof (length_field k (dumps_to x (dumps_entries l rest))) as Lk.
    assert (String.length rest < String.length (dumps_entries l rest)) as Ll.
    { clear. induction l as [|[k' y] l IH]; simpl; [lia|].
      pose proof (length_dumps_to y (dumps_entries l rest)).
      pose proof (length_field k' (dumps_to y (dumps_entries l rest))). lia. }
    destruct fuel as [|fuel]; [lia|].
    destruct (field_head k (dumps_to x (dumps_entries l rest)))
      as (c & s & E & Hc).
    simpl. rewrite E.
    destruct (Ascii.eqb_spec c "}"); [done|]. rewrite <- E.
    rewrite read_field_field. rewrite Hx by lia. rewrite IHl by lia. done.
Qed.

Lemma loads_from_dumps_to v :
  forall rest fuel,
    2 * (String.length (dumps_to v rest) - String.length rest) <= fuel ->
    loads_from fuel (dumps_to v rest) = Some (v, rest).
Proof.
  induction v as [|b|n|s|items IH|items IH] using value_nested_ind;
    intros rest fuel Hfuel;
    match type of Hfuel with context [dumps_to ?v _] =>
      pose proof (length_dumps_to v rest) as Hlen
    end;
    (destruct fuel as [|fuel]; [lia|]).
  - done.
  - by destruct b.
  - simpl. destruct (Z.ltb_spec n 0); rewrite read_unary_unary;
      do 2 f_equal; f_equal; lia.
  - simpl. by rewrite read_field_field.
  - rewrite dumps_to_list in *. cbn [String.length] in Hfuel.
    cbn [loads_from]. rewrite items_from_dumps_items; [done|done|lia].
  - rewrite dumps_to_dict in *. cbn [String.length] in Hfuel.
    cbn [loads_from]. rewrite entries_from_dumps_entries; [done|done|lia].
Qed.

Lemma loads_dumps v : loads (dumps v) = inr v.
Proof.
  unfold loads, dumps. rewrite loads_from_dumps_to; [done|].
  simpl. lia.
Qed.

#[export] Instance laws : LibraryLaws Reference.library.
Proof.
  split.
  - apply unseal_seal.
  - apply unseal_other_key.
  - intros v _. apply loads_dumps.
Qed.

End ReferenceLaws.

(** ** The vault *)

(** C5, as the code has it. [_load_salt] raises the not-initialised error
    when there is no salt file, and [unlock] catches it: [unlock] itself
    raises nothing, returns false and leaves the vault as it was. When the
    salt file exists [unlock] returns true for every password and holds the
    key derived from that password and the salt. *)
Theorem storage_unlock_spec {L : Library} w password :
  let salt_path := os_path_join (path w) ".salt" in
  (files w !! salt_path = None ->
     Storage._load_salt w = (Raise NotInitialized, w) /\
     Storage.unlock password w = (Ok false, w)) /\
  (forall salt, files w !! salt_path = Some salt ->
     Storage.unlock password w
     = (Ok true, with_fernet (Some (pbkdf2_hmac_sha256 password salt)) w)).
Proof.
  intros salt_path. subst salt_path. split.
  - intros H. split; run_methods; rewrite H; simpl; done.
  - intros salt H. run_methods. rewrite H. simpl. by rewrite H.
Qed.

(** ** Snapshots *)

Lemma as_memory_memory_dict memory :
  as_memory (memory_dict memory) = Some memory.
Proof.
  unfold as_memory, memory_dict.
  rewrite mapM_fmap_Some by (by intros []).
  simpl. by rewrite list_to_map_to_list.
Qed.

Lemma well_formed_state memory locked :
  well_formed (PyDict [("memory", memory_dict memory);
                       ("locked", PyBool locked)]).
Proof.
  split.
  - simpl. apply NoDup_cons. split; [|apply NoDup_singleton].
    intros H%list_elem_of_singleton. discriminate.
  - split; [|done]. unfold memory_dict. split.
    + rewrite <- list_fmap_compose. apply NoDup_fst_map_to_list.
    + induction (map_to_list memory) as [|kf l IH]; simpl; done.
Qed.

(** C9. [save] is refused in a locked index and writes nothing; in an
    unlocked index it writes the snapshot of the mapping with a false lock
    flag. Whatever world that text is later found in, under whatever name,
    an unlocked index that loads it takes the mapping and stays unlocked;
    so every [load] of it that succeeds ends in an unlocked index. *)
Theorem saved_snapshot_is_unlocked {L : Library} {LL : LibraryLaws L} w name :
  let state_path := os_path_join (path w) (name +:+ ".state") in
  let snapshot :=
    json_dumps (PyDict [("memory", memory_dict (_memory w));
                        ("locked", PyBool false)]) in
  (_locked w = true ->
     MemoryManager.save name w = (Raise MemoryLocked, w)) /\
  (_locked w = false ->
     MemoryManager.save name w
     = (Ok tt, with_files (<[state_path := snapshot]> (files w)) w)) /\
  (forall u name',
     files u !! os_path_join (path u) (name' +:+ ".state") = Some snapshot ->
     (_locked u = false ->
        MemoryManager.load name' u
        = Some (Ok tt, with_locked false (with_memory (_memory w) u))) /\
     (forall u', MemoryManager.load name' u = Some (Ok tt, u') ->
        _locked u' = false)).
Proof.
  intros state_path snapshot. subst state_path snapshot.
  split; [apply locked_save_refused|]. split.
  { intros Hw. run_methods. rewrite Hw. run_methods. by rewrite ?Hw. }
  intros u name' Hfile.
  assert (_locked u = false ->
          MemoryManager.load name' u
          = Some (Ok tt, with_locked false (with_memory (_memory w) u)))
    as Hload.
  { intros Hu. run_methods. rewrite Hu. simpl.
    rewrite Hfile. simpl. rewrite json_roundtrip by apply well_formed_state.
    simpl. rewrite as_memory_memory_dict. simpl. done. }
  split; [done|]. intros u' Hrun.
  destruct (_locked u) eqn:Hu.
  - rewrite locked_load_refused in Hrun by done. discriminate.
  - rewrite Hload in Hrun by done. by injection Hrun as <-.
Qed.

(** [load] of a name that has no snapshot file raises the error that names
    it, and changes nothing. *)
Lemma load_missing_snapshot {L : Library} w name :
  _locked w = false ->
  files w !! os_path_join (path w) (name +:+ ".state") = None ->
  MemoryManager.load name w = Some (Raise (SnapshotNotFound name), w).
Proof. intros H1 H2. run_methods. by rewrite H1, H2. Qed.

(** Where the snapshot holds, as ['memory'], anything but a dict of
    strings, the code installs it all the same, and [load] has no outcome
    in the typed world. *)
Lemma load_outside_the_types {L : Library} w name text items :
  _locked w = false ->
  files w !! os_path_join (path w) (name +:+ ".state") = Some text ->
  json_loads text = inr (PyDict items) ->
  as_memory (dict_get "memory" items (PyDict [])) = None ->
  MemoryManager.load name w = None.
Proof. intros H1 H2 H3 H4. run_methods. by rewrite H1, H2, H3, H4. Qed.

(** ** Overwriting a key *)

(** C2, as the code has it. [set] of a key that is mapped to [old], under
    an identifier that differs from it, maps the key to the new blob file
    and writes that file; it removes nothing: the file of [old] and every
    other file are as they were. *)
Theorem set_existing_key_keeps_old_blob {L : Library}
    w key v token_hex entropy old k :
  _locked w = false ->
  _fernet w = Some k ->
  _memory w !! key = Some old ->
  token_hex +:+ ".dat" <> old ->
  let new := token_hex +:+ ".dat" in
  exists w',
    MemoryManager.set key v token_hex entropy w = (Ok tt, w') /\
    _memory w' !! key = Some new /\
    files w' !! os_path_join (path w') new
      = Some (fernet_encrypt k entropy (json_dumps v)) /\
    files w' !! os_path_join (path w') old
      = files w !! os_path_join (path w) old /\
    (forall filepath, filepath <> os_path_join (path w) new ->
       files w' !! filepath = files w !! filepath).
Proof.
  intros Hlocked Hk Hkey Hfresh new. subst new. eexists. split.
  { run_methods. rewrite Hlocked, Hk. simpl. reflexivity. }
  simpl. rewrite !lookup_insert_eq. repeat split.
  - apply lookup_insert_ne. by intros ?%os_path_join_inj.
  - intros filepath Hne. by apply lookup_insert_ne.
Qed.

(** ** A wrong password *)

(** C3, as the code has it. A blob is written while the vault holds the
    key of the right password; the vault is then unlocked with a password
    that derives another key, which succeeds; [get] of the key then raises
    the [RuntimeError] that names the key, around the authentication
    failure of the vault, and returns no value. *)
Theorem wrong_password_get_fails {L : Library} {LL : LibraryLaws L}
    w password wrong salt key v token_hex entropy default :
  _locked w = false ->
  files w !! os_path_join (path w) ".salt" = Some salt ->
  _fernet w = Some (pbkdf2_hmac_sha256 password salt) ->
  pbkdf2_hmac_sha256 wrong salt <> pbkdf2_hmac_sha256 password salt ->
  exists w1 w2,
    MemoryManager.set key v token_hex entropy w = (Ok tt, w1) /\
    Storage.unlock wrong w1 = (Ok true, w2) /\
    MemoryManager.get key default w2
    = (Raise (ReadFailure key AuthenticationFailed), w2).
Proof.
  intros Hlocked Hsalt Hk Hwrong. eexists _, _. split; [|split].
  - run_methods. rewrite Hlocked, Hk. simpl. reflexivity.
  - run_methods.
    rewrite lookup_insert_ne by apply dat_ne_salt. rewrite Hsalt. simpl.
    rewrite lookup_insert_ne by apply dat_ne_salt. rewrite Hsalt. simpl.
    reflexivity.
  - run_methods. rewrite lookup_insert_eq. simpl. rewrite lookup_insert_eq.
    simpl. rewrite fernet_authentic by done. simpl. done.
Qed.

(** ** Runs keep one key per blob *)

Section runs.
Context {L : Library}.

Lemma snapshots_sound_weaken known known' w w' :
  known ⊆ known' ->
  path w' = path w ->
  (forall name text,
     files w' !! os_path_join (path w) (name +:+ ".state") = Some text ->
     files w !! os_path_join (path w) (name +:+ ".state") = Some text) ->
  snapshots_sound known w -> snapshots_sound known' w'.
Proof.
  intros Hsub Hpath Hfiles Hs name text items Hf Hj.
  rewrite Hpath in Hf. apply Hfiles in Hf.
  destruct (Hs name text items Hf Hj) as (memory & Hm & H1 & H2).
  exists memory. split; [done|]. split; [done|].
  intros k f Hk. apply Hsub. eauto.
Qed.

Lemma one_key_per_blob_empty : one_key_per_blob ∅.
Proof. intros k1 k2 f H. by rewrite lookup_empty in H. Qed.

Lemma one_key_per_blob_delete key memory :
  one_key_per_blob memory -> one_key_per_blob (delete key memory).
Proof.
  intros H k1 k2 f H1 H2.
  apply lookup_delete_Some in H1 as [_ H1].
  apply lookup_delete_Some in H2 as [_ H2]. eauto.
Qed.

Lemma one_key_per_blob_insert key filename memory :
  one_key_per_blob memory ->
  (forall k, memory !! k <> Some filename) ->
  one_key_per_blob (<[key := filename]> memory).
Proof.
  intros H Hnew k1 k2 f H1 H2.
  apply lookup_insert_Some in H1 as [[-> <-]|[Hk1 H1]];
    apply lookup_insert_Some in H2 as [[-> E]|[Hk2 H2]]; subst; try done.
  - by apply Hnew in H2.
  - by apply Hnew in H1.
  - eauto.
Qed.

(** The loop of [clear] returns, changes only the files, and adds none. *)
Lemma clear_loop_spec p filenames w :
  exists fs,
    for_each filenames (fun filename =>
      try_except (os_remove (os_path_join p filename))
        (fun e => if is_OSError e then ret tt else raise e)) w
    = (Ok tt, with_files fs w) /\
    (forall filepath content,
       fs !! filepath = Some content -> files w !! filepath = Some content).
Proof.
  revert w. induction filenames as [|f l IH]; intros w.
  - exists (files w). split; [by destruct w|done].
  - simpl. unfold bind at 1. unfold try_except at 1. unfold os_remove at 1.
    destruct (files w !! os_path_join p f) eqn:E; simpl.
    + destruct (IH (with_files (delete (os_path_join p f) (files w)) w))
        as (fs & -> & Hfs).
      exists fs. split; [done|]. intros filepath content H.
      apply Hfs in H. simpl in H. by apply lookup_delete_Some in H as [_ H].
    + destruct (IH w) as (fs & -> & Hfs). eauto.
Qed.

End runs.

Section invariant.
Context {L : Library} {LL : LibraryLaws L}.

Lemma removed_grows (removed gone known new : gset string) :
  removed ⊆ known -> gone ⊆ known -> removed ∪ gone ⊆ known ∪ new.
Proof.
  intros H1 H2 x [Hx|Hx]%elem_of_union; apply elem_of_union_l; auto.
Qed.

(** The invariant talks about the mapping, the files and the path only, and
    holds of a world with fewer snapshot files and more known identifiers. *)
Lemma index_inv_weaken known removed w known' removed' w' :
  index_inv known removed w ->
  known ⊆ known' ->
  removed' ⊆ known' ->
  path w' = path w ->
  (forall name text,
     files w' !! os_path_join (path w) (name +:+ ".state") = Some text ->
     files w !! os_path_join (path w) (name +:+ ".state") = Some text) ->
  one_key_per_blob (_memory w') ->
  (forall k filename, _memory w' !! k = Some filename -> filename ∈ known') ->
  index_inv known' removed' w'.
Proof.
  intros (_ & _ & _ & Hs) Hk Hr Hp Hf H1 H2.
  split; [done|]. split; [done|]. split; [done|].
  exact (snapshots_sound_weaken known known' w w' Hk Hp Hf Hs).
Qed.

Lemma index_inv_same_store known removed w new gone w' :
  index_inv known removed w ->
  gone ⊆ known ->
  path w' = path w -> files w' = files w -> _memory w' = _memory w ->
  index_inv (known ∪ new) (removed ∪ gone) w'.
Proof.
  intros Hinv Hgone Hp Hf Hm. pose proof Hinv as (H1 & H2 & H3 & H4).
  apply (index_inv_weaken known removed w); try done.
  - apply union_subseteq_l.
  - by apply removed_grows.
  - intros name text. by rewrite Hf.
  - by rewrite Hm.
  - rewrite Hm. intros k f H. apply elem_of_union_l. eauto.
Qed.

Lemma index_inv_set known removed w key v token_hex entropy :
  index_inv known removed w ->
  token_hex +:+ ".dat" ∉ known ->
  index_inv (known ∪ {[ token_hex +:+ ".dat" ]}) (removed ∪ ∅)
    (MemoryManager.set key v token_hex entropy w).2.
Proof.
  intros Hinv Hfresh. pose proof Hinv as (H1 & H2 & H3 & H4).
  run_methods. destruct (_locked w); simpl;
    [by apply (index_inv_same_store known removed w)|].
  destruct (_fernet w); simpl;
    [|by apply (index_inv_same_store known removed w)].
  apply (index_inv_weaken known removed w); simpl; try done.
  - apply union_subseteq_l.
  - by apply removed_grows.
  - intros name text. by rewrite lookup_insert_ne by apply dat_ne_state.
  - apply one_key_per_blob_insert; [done|].
    intros k Hk. apply Hfresh. eauto.
  - intros k f [[_ <-]|[_ Hk]]%lookup_insert_Some.
    + apply elem_of_union_r. by apply elem_of_singleton.
    + apply elem_of_union_l. eauto.
Qed.

Lemma index_inv_delete known removed w key :
  index_inv known removed w ->
  index_inv (known ∪ ∅) (removed ∪ deleted (call_delete key) w)
    (MemoryManager.delete key w).2.
Proof.
  intros Hinv. pose proof Hinv as (H1 & H2 & H3 & H4).
  run_methods. destruct (_memory w !! key) as [f|] eqn:Hkey; simpl;
    [|by apply (index_inv_same_store known removed w)].
  assert ({[f]} ⊆ known) as Hf.
  { intros x ->%elem_of_singleton. eauto. }
  assert (forall k filename,
    delete key (_memory w) !! k = Some filename -> filename ∈ known ∪ ∅).
  { intros k f' [_ Hk]%lookup_delete_Some. apply elem_of_union_l. eauto. }
  destruct (files w !! _) eqn:Hfile; simpl;
    apply (index_inv_weaken known removed w); simpl; try done;
    try apply union_subseteq_l; try (by apply removed_grows);
    try (by apply one_key_per_blob_delete).
  by intros name text [_ H']%lookup_delete_Some.
Qed.

Lemma index_inv_clear known removed w :
  index_inv known removed w ->
  index_inv (known ∪ ∅) (removed ∪ deleted call_clear w)
    (MemoryManager.clear w).2.
Proof.
  intros Hinv. pose proof Hinv as (H1 & H2 & H3 & H4).
  unfold MemoryManager.clear, deleted.
  unfold bind at 1, gets at 1. simpl.
  destruct (_locked w); simpl;
    [by apply (index_inv_same_store known removed w)|].
  unfold bind at 1, gets at 1. unfold bind at 1, gets at 1.
  unfold bind at 1.
  destruct (clear_loop_spec (path w) (map_to_list (_memory w)).*2 w)
    as (fs & -> & Hfs).
  simpl. apply (index_inv_weaken known removed w); simpl; try done.
  - apply union_subseteq_l.
  - apply removed_grows; [done|].
    intros f [k Hk]%elem_of_map_img. eauto.
  - intros name text. apply Hfs.
Qed.

Lemma index_inv_save known removed w name :
  index_inv known removed w ->
  index_inv (known ∪ ∅) (removed ∪ ∅) (MemoryManager.save name w).2.
Proof.
  intros Hinv. pose proof Hinv as (H1 & H2 & H3 & H4).
  run_methods. destruct (_locked w) eqn:Hlocked; simpl;
    [by apply (index_inv_same_store known removed w)|].
  split; [done|]. split; [|split; [by apply removed_grows|]]; simpl.
  { intros k f Hk. apply elem_of_union_l. eauto. }
  intros name' text items Hfile Hjson. simpl in Hfile.
  destruct (decide (os_path_join (path w) (name +:+ ".state")
                    = os_path_join (path w) (name' +:+ ".state"))) as [E|E].
  - rewrite E, lookup_insert_eq in Hfile. injection Hfile as <-.
    rewrite json_roundtrip in Hjson by apply well_formed_state.
    injection Hjson as <-.
    exists (_memory w). simpl. rewrite as_memory_memory_dict.
    split; [done|]. split; [done|].
    intros k f Hk. apply elem_of_union_l. eauto.
  - rewrite lookup_insert_ne in Hfile by done.
    destruct (H4 name' text items Hfile Hjson) as (memory & Hmem & Hone & Hk').
    exists memory. split; [done|]. split; [done|].
    intros k f Hk. apply elem_of_union_l. eauto.
Qed.

(** From a directory of sound snapshots [load] is defined, and keeps the
    invariant. *)
Lemma index_inv_load known removed w name :
  index_inv known removed w ->
  exists r w', MemoryManager.load name w = Some (r, w') /\
               index_inv (known ∪ ∅) (removed ∪ ∅) w'.
Proof.
  intros Hinv. pose proof Hinv as (H1 & H2 & H3 & H4).
  assert (forall memory b,
    one_key_per_blob memory ->
    (forall k f, memory !! k = Some f -> f ∈ known) ->
    index_inv (known ∪ ∅) (removed ∪ ∅)
      (mkWorld (files w) (path w) (_fernet w) memory b)) as Hloaded.
  { intros memory b Hone Hids.
    apply (index_inv_weaken known removed w); simpl; try done.
    - apply union_subseteq_l.
    - by apply removed_grows.
    - intros k f Hk. apply elem_of_union_l. eauto. }
  assert (index_inv (known ∪ ∅) (removed ∪ ∅) w) as Hsame
    by (by apply (index_inv_same_store known removed w)).
  run_methods. destruct (_locked w) eqn:Hlocked; simpl; [by eauto|].
  destruct (files w !! _) as [text|] eqn:Hfile; simpl; [|by eauto].
  destruct (json_loads text) as [msg|state] eqn:Hjson; simpl; [by eauto|].
  destruct state as [| | | | |items]; simpl; try (by eauto).
  destruct (H4 name text items Hfile Hjson) as (memory & -> & Hone & Hids).
  simpl. eexists _, _. split; [done|]. by apply Hloaded.
Qed.

Lemma index_inv_set_password known removed w password salt :
  index_inv known removed w ->
  index_inv (known ∪ ∅) (removed ∪ ∅)
    (Storage.set_password password salt w).2.
Proof.
  intros Hinv. pose proof Hinv as (H1 & H2 & H3 & H4).
  run_methods. apply (index_inv_weaken known removed w); simpl; try done.
  - apply union_subseteq_l.
  - by apply removed_grows.
  - intros name text. by rewrite lookup_insert_ne by apply salt_ne_state.
  - intros k f Hk. apply elem_of_union_l. eauto.
Qed.

Lemma index_inv_storage_unlock known removed w password :
  index_inv known removed w ->
  index_inv (known ∪ ∅) (removed ∪ ∅) (Storage.unlock password w).2.
Proof.
  intros Hinv. run_methods.
  destruct (files w !! _) eqn:Hsalt; simpl; [rewrite Hsalt; simpl|];
    by apply (index_inv_same_store known removed w).
Qed.

(** Under the invariant every call is defined, and keeps the invariant. *)
Lemma index_inv_call known removed w c :
  index_inv known removed w ->
  fresh known c ->
  exists w', after c w = Some w' /\
             index_inv (known ∪ drawn c) (removed ∪ deleted c w) w'.
Proof.
  intros Hinv Hfresh. destruct c; simpl;
    try (eexists; split; [reflexivity|]).
  - by apply index_inv_set.
  - rewrite get_keeps_world. by apply (index_inv_same_store known removed w).
  - by apply index_inv_delete.
  - by apply index_inv_clear.
  - by apply (index_inv_same_store known removed w).
  - by apply (index_inv_same_store known removed w).
  - by apply index_inv_save.
  - destruct (index_inv_load known removed w name Hinv) as (r & w' & -> & H).
    by exists w'.
  - by apply index_inv_set_password.
  - by apply index_inv_storage_unlock.
Qed.

Lemma index_inv_run w0 known0 known removed w :
  initial known0 w0 ->
  run w0 known0 known removed w ->
  index_inv known removed w.
Proof.
  intros (Hmem & _ & Hs).
  induction 1 as [|known removed w c w' _ IH Hfresh Hafter].
  - split; [|split; [|split]]; try done.
    + rewrite Hmem. apply one_key_per_blob_empty.
    + rewrite Hmem. intros k f Hk. by rewrite lookup_empty in Hk.
  - destruct (index_inv_call known removed w c IH Hfresh) as (u & Hu & Hinv).
    rewrite Hafter in Hu. by injection Hu as <-.
Qed.

End invariant.

(** C8. A run starts from a new index over a directory whose snapshots
    hold mappings from keys to identifiers, one key per blob. In every
    world such a run reaches, no blob identifier is mapped by two keys;
    every next call is defined there, so the run goes on; and a fresh
    identifier, which is what the next [set] draws, is none of the
    identifiers that deletions have taken out of the mapping so far. *)
Theorem blob_ids_unique_and_not_reused {L : Library} {LL : LibraryLaws L}
    w0 known0 known removed w :
  initial known0 w0 ->
  run w0 known0 known removed w ->
  one_key_per_blob (_memory w) /\
  (forall c, fresh known c -> is_Some (after c w)) /\
  (forall key v token_hex entropy,
     fresh known (call_set key v token_hex entropy) ->
     ((token_hex +:+ ".dat") ∉ removed) /\
     forall w',
       MemoryManager.set key v token_hex entropy w = (Ok tt, w') ->
       _memory w' !! key = Some (token_hex +:+ ".dat") /\
       one_key_per_blob (_memory w')).
Proof.
  intros Hinit Hrun.
  pose proof (index_inv_run _ _ _ _ _ Hinit Hrun) as Hinv.
  split; [apply Hinv|]. split.
  { intros c Hfresh.
    destruct (index_inv_call known removed w c Hinv Hfresh) as (w' & -> & _).
    by exists w'. }
  intros key v token_hex entropy Hfresh. split.
  - destruct Hinv as (_ & _ & Hremoved & _). intros Hin. by apply Hfresh, Hremoved.
  - intros w' Hset.
    pose proof (index_inv_set _ _ _ key v token_hex entropy Hinv Hfresh) as Hinv'.
    rewrite Hset in Hinv'. split; [|apply Hinv'].
    revert Hset. run_cases; intros; simplify_eq/=. by rewrite lookup_insert_eq.
Qed.

(** ** The store on concrete inputs *)

Section scenario_facts.
Import Scenario.
#[local] Existing Instance Reference.library.
#[local] Existing Instance ReferenceLaws.laws.

(** The scenario of the specification. *)
Example spec_scenario :
  let w1 := (MemoryManager.set "b"
               (PyDict [("x", PyList [PyInt 1; PyInt 2; PyInt 3])])
               token2 "iv2" with_a).2 in
  let w2 := (MemoryManager.delete "a" w1).2 in
  let w3 := (MemoryManager.clear w2).2 in
  (MemoryManager.get "a" PyNone w1).1 = Ok (PyInt 42) /\
  (MemoryManager.get "b" PyNone w1).1
    = Ok (PyDict [("x", PyList [PyInt 1; PyInt 2; PyInt 3])]) /\
  (MemoryManager.delete "a" w1).1 = Ok true /\
  (MemoryManager.get "a" (PyStr "gone") w2).1 = Ok (PyStr "gone") /\
  (MemoryManager.clear w2).1 = Ok tt /\
  (MemoryManager.get "b" PyNone w3).1 = Ok PyNone.
Proof. vm_compute. repeat split. Qed.

Lemma locked_delete_not_refused_witness :
  let w := with_locked true with_a in
  exists b w',
    MemoryManager.delete "a" w = (Ok b, w') /\
    _locked w' = true /\
    _memory w' = delete "a" (_memory w) /\
    _memory w' <> _memory w.
Proof.
  intros w.
  apply (locked_delete_not_refused w "a" (token1 +:+ ".dat")); reflexivity.
Defined.

(** The run at that input: nothing is raised, and the entry and the blob
    file are gone. *)
Example locked_delete_runs :
  let w := with_locked true with_a in
  _locked w = true /\
  _memory w !! "a" = Some (token1 +:+ ".dat") /\
  (MemoryManager.delete "a" w).1 = Ok true /\
  _memory (MemoryManager.delete "a" w).2 !! "a" = None /\
  files (MemoryManager.delete "a" w).2
    !! os_path_join "/vault" (token1 +:+ ".dat") = None.
Proof. vm_compute. repeat split. Qed.



Lemma set_without_key_changes_nothing_witness :
  MemoryManager.set "a" (PyInt 42) token1 "iv1" empty_store
  = (Raise StorageLocked, empty_store).
Proof.
  apply (proj1 (set_without_key_changes_nothing
                  empty_store "a" (PyInt 42) token1 "iv1")); reflexivity.
Defined.

Lemma delete_spec_witness :
  MemoryManager.delete "b" with_a = (Ok false, with_a) /\
  MemoryManager.delete "a" with_a
    = (Ok true,
       with_files (delete "/vault/0f1e2d3c4b5a69788796a5b4c3d2e1f0.dat"
                     (files with_a))
         (with_memory (delete "a" (_memory with_a)) with_a)) /\
  MemoryManager.delete "a" blob_lost
    = (Ok false, with_memory (delete "a" (_memory blob_lost)) blob_lost) /\
  MemoryManager.get "a" (PyStr "gone") (MemoryManager.delete "a" with_a).2
    = (Ok (PyStr "gone"), (MemoryManager.delete "a" with_a).2).
Proof.
  split; [|split; [|split]].
  - apply (proj1 (delete_spec with_a "b")). reflexivity.
  - apply (proj2 (delete_spec with_a "a") (token1 +:+ ".dat")).
    + reflexivity.
    + vm_compute. eauto.
  - apply (proj2 (delete_spec blob_lost "a") (token1 +:+ ".dat")); reflexivity.
  - apply (proj2 (delete_spec with_a "a") (token1 +:+ ".dat")). reflexivity.
Defined.

Lemma get_spec_witness :
  MemoryManager.get "b" (PyStr "none") with_a = (Ok (PyStr "none"), with_a) /\
  MemoryManager.get "a" PyNone blob_lost
    = (Raise (ReadFailure "a"
         (FileNotFoundError "/vault/0f1e2d3c4b5a69788796a5b4c3d2e1f0.dat")),
       blob_lost) /\
  MemoryManager.get "a" PyNone (with_fernet None with_a)
    = (Raise (ReadFailure "a" StorageLocked), with_fernet None with_a) /\
  MemoryManager.get "a" PyNone reopened_wrong
    = (Raise (ReadFailure "a" AuthenticationFailed), reopened_wrong) /\
  MemoryManager.get "a" PyNone blob_not_json
    = (Raise (ReadFailure "a" (JSONDecodeError "Expecting value")),
       blob_not_json) /\
  MemoryManager.get "a" PyNone with_a = (Ok (PyInt 42), with_a).
Proof.
  pose (filename := token1 +:+ ".dat").
  split; [|split; [|split; [|split; [|split]]]].
  - apply (proj1 (get_spec with_a "b" (PyStr "none"))). reflexivity.
  - apply (proj1 (proj2 (get_spec blob_lost "a" PyNone) filename eq_refl)).
    reflexivity.
  - eapply (proj1 (proj2 (proj2 (get_spec (with_fernet None with_a) "a" PyNone)
                                 filename eq_refl))); reflexivity.
  - eapply (proj1 (proj2 (proj2 (proj2 (get_spec reopened_wrong "a" PyNone)
                                        filename eq_refl)))); reflexivity.
  - eapply (proj1 (proj2 (proj2 (proj2 (proj2 (get_spec blob_not_json "a" PyNone)
                                        filename eq_refl))))); reflexivity.
  - eapply (proj2 (proj2 (proj2 (proj2 (proj2 (get_spec with_a "a" PyNone)
                                        filename eq_refl))))); reflexivity.
Defined.


(** C5 as the specification states it fails: with no salt file, [unlock]
    returns false; it does not raise the not-initialised error. *)
Lemma storage_unlock_without_salt_returns_false :
  files empty_store !! os_path_join (path empty_store) ".salt" = None /\
  Storage.unlock "correct horse" empty_store = (Ok false, empty_store) /\
  (Storage.unlock "correct horse" empty_store).1 <> Raise NotInitialized.
Proof. vm_compute. repeat split. discriminate. Qed.

Lemma storage_unlock_spec_witness :
  (Storage._load_salt empty_store = (Raise NotInitialized, empty_store) /\
   Storage.unlock "correct horse" empty_store = (Ok false, empty_store)) /\
  Storage.unlock "wrong horse" with_a
  = (Ok true,
     with_fernet (Some (pbkdf2_hmac_sha256 "wrong horse" salt)) with_a).
Proof.
  split.
  - apply (proj1 (storage_unlock_spec empty_store "correct horse")).
    reflexivity.
  - apply (proj2 (storage_unlock_spec with_a "wrong horse") salt).
    reflexivity.
Defined.

Lemma saved_snapshot_is_unlocked_witness :
  let snapshot :=
    json_dumps (PyDict [("memory", memory_dict (_memory with_a));
                        ("locked", PyBool false)]) in
  let saved :=
    with_files (<["/vault/s.state" := snapshot]> (files with_a)) with_a in
  MemoryManager.save "s" (with_locked true with_a)
    = (Raise MemoryLocked, with_locked true with_a) /\
  MemoryManager.save "s" with_a = (Ok tt, saved) /\
  MemoryManager.load "s" saved
    = Some (Ok tt, with_locked false (with_memory (_memory with_a) saved)).
Proof.
  intros snapshot saved.
  split; [|split].
  - apply (proj1 (saved_snapshot_is_unlocked (with_locked true with_a) "s")).
    reflexivity.
  - apply (proj1 (proj2 (saved_snapshot_is_unlocked with_a "s"))).
    reflexivity.
  - apply (proj1 (proj2 (proj2 (saved_snapshot_is_unlocked with_a "s"))
                    saved "s" eq_refl)).
    reflexivity.
Defined.

(** C2 as the specification states it fails: ["a"] is mapped to the blob
    of [token1]; [set] of ["a"] under [token2] succeeds, and the file of
    the old blob is still in the directory, with its old contents. *)
Lemma set_existing_key_does_not_delete_old_blob :
  let old := os_path_join (path with_a) (token1 +:+ ".dat") in
  let w' := (MemoryManager.set "a" (PyInt 7) token2 "iv2" with_a).2 in
  _memory with_a !! "a" = Some (token1 +:+ ".dat") /\
  (MemoryManager.set "a" (PyInt 7) token2 "iv2" with_a).1 = Ok tt /\
  _memory w' !! "a" = Some (token2 +:+ ".dat") /\
  files w' !! old = files with_a !! old /\
  files w' !! old <> None.
Proof. vm_compute. repeat split. discriminate. Qed.

Lemma set_existing_key_keeps_old_blob_witness :
  exists w',
    MemoryManager.set "a" (PyInt 7) token2 "iv2" with_a = (Ok tt, w') /\
    _memory w' !! "a" = Some (token2 +:+ ".dat") /\
    files w' !! os_path_join (path w') (token2 +:+ ".dat")
      = Some (fernet_encrypt (Reference.derive "correct horse" salt) "iv2"
                (json_dumps (PyInt 7))) /\
    files w' !! os_path_join (path w') (token1 +:+ ".dat")
      = files with_a !! os_path_join (path with_a) (token1 +:+ ".dat") /\
    (forall filepath,
       filepath <> os_path_join (path with_a) (token2 +:+ ".dat") ->
       files w' !! filepath = files with_a !! filepath).
Proof.
  apply (set_existing_key_keeps_old_blob with_a "a" (PyInt 7) token2 "iv2"
           (token1 +:+ ".dat") (Reference.derive "correct horse" salt));
    try reflexivity.
  vm_compute. discriminate.
Defined.

(** C3 as the specification states it fails: after the unlock with the
    wrong password, [get] raises the [RuntimeError] that names the key; the
    exception is not the vault's [InvalidToken]. *)
Lemma wrong_password_get_raises_read_failure :
  (Storage.unlock "wrong horse" with_a).1 = Ok true /\
  (MemoryManager.get "a" PyNone reopened_wrong).1
    = Raise (RuntimeError "Failed to read key 'a': ") /\
  (MemoryManager.get "a" PyNone reopened_wrong).1 <> Raise AuthenticationFailed.
Proof. vm_compute. repeat split. discriminate. Qed.

Lemma wrong_password_get_fails_witness :
  exists w1 w2,
    MemoryManager.set "a" (PyInt 42) token1 "iv1" opened = (Ok tt, w1) /\
    Storage.unlock "wrong horse" w1 = (Ok true, w2) /\
    MemoryManager.get "a" PyNone w2
    = (Raise (ReadFailure "a" AuthenticationFailed), w2).
Proof.
  apply (wrong_password_get_fails opened "correct horse" "wrong horse" salt
           "a" (PyInt 42) token1 "iv1" PyNone); try reflexivity.
  vm_compute. discriminate.
Defined.

(** A run: the password is set, ["a"] is set, the index is saved, ["a"] is
    deleted and the snapshot is loaded. *)
Lemma blob_ids_unique_and_not_reused_witness :
  let c1 := call_set_password "correct horse" salt in
  let c2 := call_set "a" (PyInt 42) token1 "iv1" in
  let c3 := call_save "s" in
  let c4 := call_delete "a" in
  let c5 := call_load "s" in
  let w1 := (Storage.set_password "correct horse" salt empty_store).2 in
  let w2 := (MemoryManager.set "a" (PyInt 42) token1 "iv1" w1).2 in
  let w3 := (MemoryManager.save "s" w2).2 in
  let w4 := (MemoryManager.delete "a" w3).2 in
  let w := with_locked false (with_memory (_memory w2) w4) in
  let known := ∅ ∪ drawn c1 ∪ drawn c2 ∪ drawn c3 ∪ drawn c4 ∪ drawn c5 in
  let removed :=
    ∅ ∪ deleted c1 empty_store ∪ deleted c2 w1 ∪ deleted c3 w2
      ∪ deleted c4 w3 ∪ deleted c5 w4 in
  one_key_per_blob (_memory w) /\
  (forall c, fresh known c -> is_Some (after c w)) /\
  (forall key v token_hex entropy,
     fresh known (call_set key v token_hex entropy) ->
     ((token_hex +:+ ".dat") ∉ removed) /\
     forall w',
       MemoryManager.set key v token_hex entropy w = (Ok tt, w') ->
       _memory w' !! key = Some (token_hex +:+ ".dat") /\
       one_key_per_blob (_memory w')).
Proof.
  intros c1 c2 c3 c4 c5 w1 w2 w3 w4 w known removed.
  apply (blob_ids_unique_and_not_reused empty_store ∅ known removed w).
  - split; [reflexivity|]. split; [reflexivity|].
    intros name text items Hfile. simpl in Hfile.
    by rewrite lookup_empty in Hfile.
  - subst known removed.
    apply (run_call _ _ _ _ w4 c5 w); [|done|vm_compute; reflexivity].
    apply (run_call _ _ _ _ w3 c4 w4); [|done|reflexivity].
    apply (run_call _ _ _ _ w2 c3 w3); [|done|reflexivity].
    apply (run_call _ _ _ _ w1 c2 w2); [|simpl|reflexivity].
    + apply (run_call _ _ _ _ empty_store c1 w1); [|done|reflexivity].
      apply run_start.
    + intros H. repeat (apply elem_of_union in H as [H|H]);
        by (apply elem_of_empty in H).
Defined.

End scenario_facts.


(** * More of the code *)

(** ** clear *)

Section clear_facts.
Context {L : Library}.

(** The files that the loop of [clear] leaves: those of the directory
    but the ones it visited. *)
Lemma clear_loop_files p filenames w :
  for_each filenames (fun filename =>
    try_except (os_remove (os_path_join p filename))
      (fun e => if is_OSError e then ret tt else raise e)) w
  = (Ok tt,
     with_files (foldl (fun fs filename => delete (os_path_join p filename) fs)
                   (files w) filenames) w).
Proof.
  revert w. induction filenames as [|f l IH]; intros w.
  - by destruct w.
  - simpl. unfold bind at 1. unfold try_except at 1. unfold os_remove at 1.
    destruct (files w !! os_path_join p f) eqn:E; simpl.
    + by rewrite IH.
    + rewrite IH. by rewrite (delete_id (files w)).
Qed.

Lemma lookup_foldl_delete p filenames (fs : gmap string string) filepath :
  foldl (fun fs filename => delete (os_path_join p filename) fs) fs filenames
    !! filepath
  = if decide (filepath ∈ os_path_join p <$> filenames) then None
    else fs !! filepath.
Proof.
  revert fs. induction filenames as [|f l IH]; intros fs; simpl.
  - done.
  - rewrite IH. destruct (decide (filepath ∈ os_path_join p <$> l)) as [H|H].
    + rewrite decide_True; [done|]. by apply list_elem_of_further.
    + destruct (decide (filepath = os_path_join p f)) as [->|Hne].
      * rewrite decide_True by apply list_elem_of_here.
        apply lookup_delete_eq.
      * rewrite decide_False.
        { by apply lookup_delete_ne. }
        intros [?|?]%elem_of_cons; done.
Qed.

Lemma elem_of_mapped_paths p (memory : gmap string string) filepath :
  filepath ∈ os_path_join p <$> (map_to_list memory).*2 <->
  exists k filename,
    memory !! k = Some filename /\ filepath = os_path_join p filename.
Proof.
  rewrite list_elem_of_fmap. split.
  - intros (f & -> & Hf). apply list_elem_of_fmap in Hf as ([k f'] & -> & Hkf).
    apply elem_of_map_to_list in Hkf. eauto.
  - intros (k & f & Hk & ->). exists f. split; [done|].
    apply list_elem_of_fmap. exists (k, f). split; [done|].
    by apply elem_of_map_to_list.
Qed.

End clear_facts.

(** X1. [clear] in an unlocked index returns and empties the mapping. The
    file of every mapped blob is gone afterwards, whether it was there or
    not, and every file that no key was mapped to is as it was; the vault
    key, the path and the flag are untouched. *)
Theorem clear_spec {L : Library} w :
  _locked w = false ->
  exists w',
    MemoryManager.clear w = (Ok tt, w') /\
    _memory w' = ∅ /\
    _locked w' = false /\ _fernet w' = _fernet w /\ path w' = path w /\
    (forall k filename, _memory w !! k = Some filename ->
       files w' !! os_path_join (path w) filename = None) /\
    (forall filepath,
       (forall k filename, _memory w !! k = Some filename ->
          filepath <> os_path_join (path w) filename) ->
       files w' !! filepath = files w !! filepath).
Proof.
  intros Hlocked. eexists. split.
  { unfold MemoryManager.clear. unfold bind at 1, gets at 1. rewrite Hlocked.
    unfold bind at 1, gets at 1. unfold bind at 1, gets at 1.
    unfold bind at 1. rewrite clear_loop_files. reflexivity. }
  simpl. split; [done|]. split; [done|]. split; [done|]. split; [done|].
  split.
  - intros k f Hk. rewrite lookup_foldl_delete. rewrite decide_True; [done|].
    apply elem_of_mapped_paths. eauto.
  - intros filepath Hother. rewrite lookup_foldl_delete.
    rewrite decide_False; [done|].
    intros (k & f & Hk & ->)%elem_of_mapped_paths. by eapply Hother.
Qed.

(** ** lock and unlock *)

(** X2. After [lock()] the index refuses [set], [clear], [save] and [load]
    with the locked error and is left as it is, while [get] answers as it
    did before; [unlock()] then gives back the index as it was before the
    lock, if that was unlocked. *)
Theorem lock_blocks_until_unlock {L : Library}
    w key v token_hex entropy name default :
  let locked := (MemoryManager.lock w).2 in
  _locked locked = true /\
  MemoryManager.set key v token_hex entropy locked = (Raise MemoryLocked, locked) /\
  MemoryManager.clear locked = (Raise MemoryLocked, locked) /\
  MemoryManager.save name locked = (Raise MemoryLocked, locked) /\
  MemoryManager.load name locked = Some (Raise MemoryLocked, locked) /\
  (MemoryManager.get key default locked).1
    = (MemoryManager.get key default w).1 /\
  (_locked w = false -> (MemoryManager.unlock locked).2 = w).
Proof.
  intros locked. subst locked. rewrite lock_locks. simpl.
  split; [done|].
  split; [by apply locked_set_refused|].
  split; [by apply locked_clear_refused|].
  split; [by apply locked_save_refused|].
  split; [by apply locked_load_refused|].
  split; [by rewrite get_ignores_lock|].
  intros H. destruct w. simpl in *. by subst.
Qed.

(** ** get *)

(** X3. [get] only reads: whatever it returns or raises, the mapping, the
    files, the vault key and the lock flag are as before, so a [get] can be
    repeated with the same outcome. *)
Theorem get_only_reads {L : Library} w key default :
  (MemoryManager.get key default w).2 = w /\
  MemoryManager.get key default (MemoryManager.get key default w).2
  = MemoryManager.get key default w.
Proof.
  pose proof (get_keeps_world w key default) as H. split; [done|].
  by rewrite H.
Qed.

(** ** The vault *)

(** X4. [set_password] holds the key derived from the password and the
    salt it drew and persists that salt, replacing an earlier one; the
    mapping, the flag and every other file are untouched. [unlock] with the
    same password then returns true and derives the very same key. *)
Theorem set_password_then_unlock {L : Library} w password salt :
  let salt_path := os_path_join (path w) ".salt" in
  let w' :=
    with_files (<[salt_path := salt]> (files w))
      (with_fernet (Some (pbkdf2_hmac_sha256 password salt)) w) in
  Storage.set_password password salt w = (Ok tt, w') /\
  Storage._load_salt w' = (Ok salt, w') /\
  Storage.unlock password w' = (Ok true, w').
Proof.
  intros salt_path w'. subst salt_path w'. split; [done|]. split.
  - run_methods. rewrite lookup_insert_eq. simpl. by rewrite lookup_insert_eq.
  - run_methods. rewrite lookup_insert_eq. simpl. by rewrite lookup_insert_eq.
Qed.

(** X6. With a key in the vault, [decrypt] of what [encrypt] returned gives
    the data back, whatever the token drew, and neither call changes the
    world; without a key both raise the vault's locked error. *)
Theorem encrypt_then_decrypt {L : Library} {LL : LibraryLaws L}
    w data entropy token :
  (forall k, _fernet w = Some k ->
     exists sealed,
       Storage.encrypt data entropy w = (Ok sealed, w) /\
       Storage.decrypt sealed w = (Ok data, w)) /\
  (_fernet w = None ->
     Storage.encrypt data entropy w = (Raise StorageLocked, w) /\
     Storage.decrypt token w = (Raise StorageLocked, w)).
Proof.
  split.
  - intros k Hk. eexists. split.
    + run_methods. rewrite Hk. reflexivity.
    + run_methods. rewrite Hk. by rewrite fernet_correct.
  - intros Hk. split; run_methods; by rewrite Hk.
Qed.

(** X5. A new password replaces the salt, so the old password no longer
    opens the old blobs: a value is set under the key of [old] and the
    first salt; [set_password] draws a second salt; [unlock] with [old]
    now succeeds but derives its key from the second salt, and if that key
    differs, [get] raises the error that names the key. *)
Theorem new_password_loses_old_blobs {L : Library} {LL : LibraryLaws L}
    w old new salt1 salt2 key v token_hex entropy default :
  _locked w = false ->
  _fernet w = Some (pbkdf2_hmac_sha256 old salt1) ->
  pbkdf2_hmac_sha256 old salt2 <> pbkdf2_hmac_sha256 old salt1 ->
  exists w1 w2 w3,
    MemoryManager.set key v token_hex entropy w = (Ok tt, w1) /\
    Storage.set_password new salt2 w1 = (Ok tt, w2) /\
    Storage.unlock old w2 = (Ok true, w3) /\
    _fernet w3 = Some (pbkdf2_hmac_sha256 old salt2) /\
    MemoryManager.get key default w3
    = (Raise (ReadFailure key AuthenticationFailed), w3).
Proof.
  intros Hlocked Hk Hne. eexists _, _, _. split; [|split; [|split; [|split]]].
  - run_methods. rewrite Hlocked, Hk. simpl. reflexivity.
  - reflexivity.
  - run_methods. rewrite lookup_insert_eq. simpl. rewrite lookup_insert_eq.
    reflexivity.
  - reflexivity.
  - run_methods. rewrite lookup_insert_eq. simpl.
    rewrite lookup_insert_ne by (apply not_eq_sym, dat_ne_salt).
    rewrite lookup_insert_eq. simpl.
    rewrite fernet_authentic by done. done.
Qed.

(** ** set and delete, and the other keys *)

(** What [get] of a key answers depends on the entry of the key, the file
    of its blob and the vault key only. *)
Lemma get_outcome_ext {L : Library} w1 w2 key default :
  path w1 = path w2 ->
  _fernet w1 = _fernet w2 ->
  _memory w1 !! key = _memory w2 !! key ->
  (forall filename, _memory w2 !! key = Some filename ->
     files w1 !! os_path_join (path w2) filename
     = files w2 !! os_path_join (path w2) filename) ->
  (MemoryManager.get key default w1).1 = (MemoryManager.get key default w2).1.
Proof.
  intros Hp Hk Hm Hf. run_methods. rewrite Hm.
  destruct (_memory w2 !! key) as [f|] eqn:E; [|done]. simpl.
  rewrite Hp, (Hf f eq_refl).
  destruct (files w2 !! _); simpl; [|done]. rewrite Hk.
  destruct (_fernet w2); simpl; [|done].
  destruct (fernet_decrypt _ _); simpl; [|done].
  by destruct (json_loads _).
Qed.

(** The world after [set]: as before when it raised, else with the blob
    written and the key mapped to it. *)
Lemma set_world_cases {L : Library} w key v token_hex entropy :
  (MemoryManager.set key v token_hex entropy w).2 = w \/
  exists sealed,
    (MemoryManager.set key v token_hex entropy w).2
    = mkWorld (<[os_path_join (path w) (token_hex +:+ ".dat") := sealed]>
                 (files w))
        (path w) (_fernet w)
        (<[key := token_hex +:+ ".dat"]> (_memory w)) (_locked w).
Proof.
  run_methods. destruct (_locked w) eqn:Hl; simpl; [by left|].
  destruct (_fernet w) eqn:Hk; simpl; [|by left]. right. eexists.
  rewrite <- Hl, <- Hk. reflexivity.
Qed.

(** The world after [delete]: as before for an unmapped key, else without
    the entry and without the file of the blob. *)
Lemma delete_world_cases {L : Library} w key :
  (_memory w !! key = None /\ (MemoryManager.delete key w).2 = w) \/
  exists filename,
    _memory w !! key = Some filename /\
    (MemoryManager.delete key w).2
    = mkWorld (delete (os_path_join (path w) filename) (files w))
        (path w) (_fernet w) (delete key (_memory w)) (_locked w).
Proof.
  run_methods. destruct (_memory w !! key) as [f|] eqn:Hf; simpl; [|by left].
  right. exists f. split; [done|].
  destruct (files w !! os_path_join (path w) f) eqn:Hfile; simpl; [done|].
  by rewrite (delete_id (files w)).
Qed.

(** X7. [set] of a key under an identifier that is not the blob of another
    key leaves that other key alone: [get] of it has the outcome it had
    before, whether the [set] returned or raised. *)
Theorem set_keeps_other_keys {L : Library}
    w key v token_hex entropy key' default :
  key' <> key ->
  _memory w !! key' <> Some (token_hex +:+ ".dat") ->
  (MemoryManager.get key' default
     (MemoryManager.set key v token_hex entropy w).2).1
  = (MemoryManager.get key' default w).1.
Proof.
  intros Hkey Hfile.
  destruct (set_world_cases w key v token_hex entropy) as [->|[sealed ->]];
    [done|].
  apply get_outcome_ext; simpl; try done.
  - by rewrite lookup_insert_ne.
  - intros f Hf. rewrite lookup_insert_ne; [done|].
    intros E%os_path_join_inj. congruence.
Qed.

(** X8. [set] does not look whether the identifier it drew is in use. If it
    is the blob of another key, the file is overwritten and both keys are
    mapped to it: [get] of the other key returns the value just set. *)
Theorem set_same_identifier_overwrites {L : Library} {LL : LibraryLaws L}
    w key1 key2 v token_hex entropy default k :
  well_formed v ->
  _locked w = false ->
  _fernet w = Some k ->
  _memory w !! key1 = Some (token_hex +:+ ".dat") ->
  exists w',
    MemoryManager.set key2 v token_hex entropy w = (Ok tt, w') /\
    _memory w' !! key1 = Some (token_hex +:+ ".dat") /\
    _memory w' !! key2 = Some (token_hex +:+ ".dat") /\
    MemoryManager.get key1 default w' = (Ok v, w').
Proof.
  intros Hv Hlocked Hk Hkey1. eexists. split.
  { run_methods. rewrite Hlocked, Hk. simpl. reflexivity. }
  assert (<[key2 := token_hex +:+ ".dat"]> (_memory w) !! key1
          = Some (token_hex +:+ ".dat")) as Hmap.
  { destruct (decide (key2 = key1)) as [->|Hne].
    - apply lookup_insert_eq.
    - by rewrite lookup_insert_ne. }
  simpl. split; [done|]. split; [apply lookup_insert_eq|].
  run_methods. rewrite Hmap. simpl. rewrite lookup_insert_eq. simpl.
  rewrite Hk. simpl. rewrite fernet_correct. simpl.
  by rewrite json_roundtrip.
Qed.

(** X9. In a mapping with one key per blob, [delete] of a key leaves the
    other keys alone: [get] of another key has the outcome it had
    before. *)
Theorem delete_keeps_other_keys {L : Library} w key key' default :
  one_key_per_blob (_memory w) ->
  key' <> key ->
  (MemoryManager.get key' default (MemoryManager.delete key w).2).1
  = (MemoryManager.get key' default w).1.
Proof.
  intros Hone Hkey.
  destruct (delete_world_cases w key) as [[_ ->]|(f & Hf & ->)]; [done|].
  apply get_outcome_ext; simpl; try done.
  - by rewrite lookup_delete_ne.
  - intros f' Hf'. rewrite lookup_delete_ne; [done|].
    intros E%os_path_join_inj. subst f'. apply Hkey. by eapply Hone.
Qed.

(** ** Snapshots *)

(** X10. What [load] raises in an unlocked index, and that nothing changed
    when it did: a name without snapshot file gives the error that names
    it; a file that is not JSON gives the decoder's own error, as only
    [FileNotFoundError] is translated; JSON that is not an object gives an
    [AttributeError]. *)
Theorem load_error_spec {L : Library} w name :
  _locked w = false ->
  let state_path := os_path_join (path w) (name +:+ ".state") in
  (files w !! state_path = None ->
     MemoryManager.load name w = Some (Raise (SnapshotNotFound name), w)) /\
  (forall text msg,
     files w !! state_path = Some text -> json_loads text = inl msg ->
     MemoryManager.load name w = Some (Raise (JSONDecodeError msg), w)) /\
  (forall text state,
     files w !! state_path = Some text -> json_loads text = inr state ->
     (forall items, state <> PyDict items) ->
     MemoryManager.load name w
     = Some (Raise (AttributeError
                 ("'" +:+ type_name state +:+ "' object has no attribute 'get'")),
        w)).
Proof.
  intros Hlocked state_path. subst state_path. split; [|split].
  - by apply load_missing_snapshot.
  - intros text msg Hfile Hjson. run_methods.
    by rewrite Hlocked, Hfile, Hjson.
  - intros text state Hfile Hjson Hstate. run_methods.
    rewrite Hlocked, Hfile. simpl. rewrite Hjson.
    destruct state; try done. by destruct (Hstate items).
Qed.

(** X11. A snapshot holds the mapping, not the blobs. After [save], a
    [delete] of a key whose blob file is there, and a [load] of the
    snapshot, the key is mapped again to the blob that is gone, and [get]
    raises the error that names the key, around the missing file. *)
Theorem stale_snapshot_read_fails {L : Library} {LL : LibraryLaws L}
    w name key filename content default :
  _locked w = false ->
  _memory w !! key = Some filename ->
  files w !! os_path_join (path w) filename = Some content ->
  os_path_join (path w) filename <> os_path_join (path w) (name +:+ ".state") ->
  exists w1 w2 w3,
    MemoryManager.save name w = (Ok tt, w1) /\
    MemoryManager.delete key w1 = (Ok true, w2) /\
    MemoryManager.load name w2 = Some (Ok tt, w3) /\
    _memory w3 = _memory w /\
    MemoryManager.get key default w3
    = (Raise (ReadFailure key
                (FileNotFoundError (os_path_join (path w) filename))), w3).
Proof.
  intros Hlocked Hkey Hfile Hne. eexists _, _, _.
  split; [|split; [|split; [|split]]].
  - run_methods. rewrite Hlocked. run_methods. reflexivity.
  - run_methods. rewrite Hkey. simpl.
    rewrite lookup_insert_ne by done. rewrite Hfile. simpl. reflexivity.
  - run_methods. rewrite Hlocked. simpl.
    rewrite lookup_delete_ne by done. rewrite lookup_insert_eq. simpl.
    rewrite json_roundtrip by apply well_formed_state. simpl.
    rewrite as_memory_memory_dict. simpl. reflexivity.
  - reflexivity.
  - run_methods. rewrite Hkey. simpl. rewrite lookup_delete_eq. simpl.
    reflexivity.
Qed.

(** X12. A snapshot carries the mapping to a new [MemoryManager]: after
    [save] in one index, a new index over the same storage that loads the
    snapshot answers [get] of every key, whose blob is not the snapshot
    file itself, as the first index did. *)
Theorem snapshot_restores_gets {L : Library} {LL : LibraryLaws L}
    w name key default :
  _locked w = false ->
  _memory w !! key
    <> Some (name +:+ ".state") ->
  exists w1 w2,
    MemoryManager.save name w = (Ok tt, w1) /\
    MemoryManager.load name
      (MemoryManager.__init__ (files w1) (path w1) (_fernet w1))
    = Some (Ok tt, w2) /\
    _memory w2 = _memory w /\
    (MemoryManager.get key default w2).1 = (MemoryManager.get key default w).1.
Proof.
  intros Hlocked Hkey. eexists _, _. split; [|split; [|split]].
  - run_methods. rewrite Hlocked. run_methods. reflexivity.
  - unfold MemoryManager.__init__. run_methods.
    rewrite lookup_insert_eq. simpl.
    rewrite json_roundtrip by apply well_formed_state. simpl.
    rewrite as_memory_memory_dict. simpl. reflexivity.
  - reflexivity.
  - apply get_outcome_ext; simpl; try done.
    intros f Hf. rewrite lookup_insert_ne; [done|].
    intros E%os_path_join_inj. congruence.
Qed.

(** ** cli.py *)

Ltac run_cli :=
  unfold Cli.set_value, Cli.get_value, Cli.delete, Cli.clear,
    Cli.set_password, Cli._unlock_if_needed, Cli._load_storage,
    Cli.new_MemoryManager, except_Exception, then_, returned, raised,
    call_method, echo, prompt, confirm, sys_exit; simpl.

(** An exception that leaves [get] is the one that names the key. *)
Lemma get_raises_read_failure {L : Library} w key default e :
  (MemoryManager.get key default w).1 = Raise e ->
  exists cause, e = ReadFailure key cause.
Proof.
  run_methods. destruct (_memory w !! key); simpl; [|done].
  destruct (files w !! _); simpl;
    [|intros [= <-]; by eexists (FileNotFoundError _)].
  destruct (_fernet w); simpl; [|intros [= <-]; by exists StorageLocked].
  destruct (fernet_decrypt _ _); simpl;
    [|intros [= <-]; by exists InvalidToken].
  destruct (json_loads _); simpl; [intros [= <-]|done].
  by eexists (JSONDecodeError _).
Qed.

(** [_unlock_if_needed] on a process: it returns or lets the error of
    [get] through, and the process is as before. *)
Lemma unlock_if_needed_cases {L : Library} {F : Formatting} typed p :
  Cli._unlock_if_needed typed p = (Returned tt, p) \/
  exists cause,
    Cli._unlock_if_needed typed p = (Raised (ReadFailure "__test_key" cause), p).
Proof.
  unfold Cli._unlock_if_needed, except_Exception, then_, call_method, returned.
  pose proof (get_keeps_world (world p) "__test_key" PyNone) as Hw.
  pose proof (get_raises_read_failure (world p) "__test_key" PyNone) as He.
  destruct (MemoryManager.get "__test_key" PyNone (world p)) as [[v|e] w'].
  - left. simpl in Hw. subst w'. by destruct p.
  - right. simpl in Hw. subst w'. destruct (He e eq_refl) as [cause ->].
    exists cause. simpl. by destruct p.
Qed.

(** X13. [_unlock_if_needed] never asks for the password and never unlocks
    the vault. Its probe, [get] of a test key, turns every failure into a
    [RuntimeError], which [except ValueError] lets through: the call
    returns or raises that error, and nothing was printed, asked or
    changed. *)
Theorem unlock_if_needed_never_prompts {L : Library} {F : Formatting} typed p :
  (Cli._unlock_if_needed typed p).2 = p /\
  ((Cli._unlock_if_needed typed p).1 = Returned tt \/
   exists cause,
     (Cli._unlock_if_needed typed p).1
     = Raised (ReadFailure "__test_key" cause)).
Proof.
  destruct (unlock_if_needed_cases typed p) as [->|[cause ->]]; eauto.
Qed.

(** In a process whose [MemoryManager] is new, the probe finds no key. *)
Lemma unlock_if_needed_new {L : Library} {F : Formatting} typed w evs :
  _memory w = ∅ ->
  Cli._unlock_if_needed typed (mkProcess w evs) = (Returned tt, mkProcess w evs).
Proof.
  intros Hm. run_cli. run_methods. rewrite Hm, lookup_empty. done.
Qed.

(** X14. The [get_value] command never finds a key. Its [MemoryManager] is
    new and loads nothing, so whatever the directory holds, the command
    prints that the key was not found on the error stream, leaves with
    status 1 and changes no file. *)
Theorem cli_get_value_never_finds {L : Library} {F : Formatting}
    storage_path key typed p :
  Cli.get_value storage_path key typed p
  = (Exited 1,
     mkProcess (mkWorld (files (world p)) storage_path None ∅ false)
       (events p ++ [Echo true ("Key '" +:+ key +:+ "' not found")])).
Proof.
  unfold Cli.get_value, except_Exception.
  unfold then_ at 1. unfold Cli._load_storage at 1.
  unfold then_ at 1. unfold Cli.new_MemoryManager at 1. simpl.
  unfold then_ at 1. rewrite unlock_if_needed_new by done.
  run_cli. run_methods. done.
Qed.

(** [set_value] in any process: the vault of the command is locked. *)
Lemma set_value_locked {L : Library} {F : Formatting}
    storage_path key value_text typed token_hex entropy p :
  Cli.set_value storage_path key value_text typed token_hex entropy p
  = (Exited 1,
     mkProcess (mkWorld (files (world p)) storage_path None ∅ false)
       (events p ++ [Echo true "Error: Storage is locked"])).
Proof.
  unfold Cli.set_value, except_Exception.
  unfold then_ at 1. unfold Cli._load_storage at 1.
  unfold then_ at 1. unfold Cli.new_MemoryManager at 1. simpl.
  unfold then_ at 1. rewrite unlock_if_needed_new by done.
  run_cli. run_methods. done.
Qed.

(** X15. The [set_value] command never stores a value. Its [Storage] is
    new, nothing gives it a key, and [MemoryManager.set] raises the
    vault's locked error: whatever the directory, the key and the value,
    the command prints that error on the error stream, leaves with status
    1 and writes no file. *)
Theorem cli_set_value_always_locked {L : Library} {F : Formatting}
    storage_path key value_text typed token_hex entropy p :
  let run :=
    Cli.set_value storage_path key value_text typed token_hex entropy p in
  exit_status run.1 = 1%Z /\
  events run.2 = (events p ++ [Echo true "Error: Storage is locked"])%list /\
  files (world run.2) = files (world p).
Proof.
  intros run. subst run.
  unfold Cli.set_value, except_Exception.
  unfold then_ at 1. unfold Cli._load_storage at 1.
  unfold then_ at 1. unfold Cli.new_MemoryManager at 1. simpl.
  unfold then_ at 1. rewrite unlock_if_needed_new by done.
  run_cli. run_methods. done.
Qed.

(** X16. The [delete] command never deletes: its new [MemoryManager] maps
    no key, so the command prints that the key was not found, leaves with
    status 1 and removes no file. *)
Theorem cli_delete_never_finds {L : Library} {F : Formatting}
    storage_path key typed p :
  Cli.delete storage_path key typed p
  = (Exited 1,
     mkProcess (mkWorld (files (world p)) storage_path None ∅ false)
       (events p ++ [Echo true ("Key '" +:+ key +:+ "' not found")])).
Proof.
  unfold Cli.delete, except_Exception.
  unfold then_ at 1. unfold Cli._load_storage at 1.
  unfold then_ at 1. unfold Cli.new_MemoryManager at 1. simpl.
  unfold then_ at 1. rewrite unlock_if_needed_new by done.
  run_cli. run_methods. done.
Qed.

(** X17. The [clear] command removes no file. Without [--yes] it asks, and
    on a no it returns at once; otherwise it clears a new, empty
    [MemoryManager], prints that all data was cleared and returns. In both
    cases the directory is as before. *)
Theorem cli_clear_removes_nothing {L : Library} {F : Formatting}
    storage_path (yes answer : bool) typed p :
  let question := Prompt "Are you sure you want to clear all data?" in
  let asked := if yes then events p else (events p ++ [question])%list in
  Cli.clear storage_path yes answer typed p
  = if yes || answer
    then (Returned tt,
          mkProcess (mkWorld (files (world p)) storage_path None ∅ false)
            (asked ++ [Echo false "Cleared all data"]))
    else (Returned tt, mkProcess (world p) asked).
Proof.
  intros question asked. subst question asked.
  unfold Cli.clear, except_Exception, then_, Cli._load_storage,
    Cli.new_MemoryManager, confirm, returned.
  destruct yes, answer; simpl; try done;
    rewrite unlock_if_needed_new by done;
    run_cli; run_methods; by rewrite map_to_list_empty.
Qed.

(** X18. The [set_password] command persists the salt it drew, replacing
    an earlier one, prints its success and returns; no other file changes.
    The key it derived lives in the [Storage] of that command only: a
    [set_value] that follows builds a new one and still finds the vault
    locked. *)
Theorem cli_set_password_then_set_value {L : Library} {F : Formatting}
    storage_path password salt key value_text typed token_hex entropy p :
  let salted :=
    <[os_path_join storage_path ".salt" := salt]> (files (world p)) in
  exists p',
    Cli.set_password storage_path password salt p = (Returned tt, p') /\
    files (world p') = salted /\
    events p' = (events p ++ [Echo false "Password set successfully"])%list /\
    Cli.set_value storage_path key value_text typed token_hex entropy p'
    = (Exited 1,
       mkProcess (mkWorld salted storage_path None ∅ false)
         (events p' ++ [Echo true "Error: Storage is locked"])).
Proof.
  intros salted. subst salted. eexists. split; [|split; [|split]].
  - run_cli. run_methods. reflexivity.
  - reflexivity.
  - reflexivity.
  - by rewrite set_value_locked.
Qed.

(** ** The added properties on concrete inputs *)

Section more_scenario_facts.
Import Scenario Scenario2.
#[local] Existing Instance Reference.library.
#[local] Existing Instance ReferenceLaws.laws.

Lemma clear_spec_witness :
  exists w',
    MemoryManager.clear with_ab = (Ok tt, w') /\
    _memory w' = ∅ /\
    _locked w' = false /\ _fernet w' = _fernet with_ab /\
    path w' = path with_ab /\
    (forall k filename, _memory with_ab !! k = Some filename ->
       files w' !! os_path_join (path with_ab) filename = None) /\
    (forall filepath,
       (forall k filename, _memory with_ab !! k = Some filename ->
          filepath <> os_path_join (path with_ab) filename) ->
       files w' !! filepath = files with_ab !! filepath).
Proof. apply (clear_spec with_ab). reflexivity. Defined.

Lemma lock_blocks_until_unlock_witness :
  (MemoryManager.unlock (MemoryManager.lock with_a).2).2 = with_a.
Proof.
  apply (lock_blocks_until_unlock with_a "a" PyNone token2 "iv" "s" PyNone).
  reflexivity.
Defined.

Lemma new_password_loses_old_blobs_witness :
  exists w1 w2 w3,
    MemoryManager.set "a" (PyInt 42) token1 "iv1" opened = (Ok tt, w1) /\
    Storage.set_password "new horse" salt2 w1 = (Ok tt, w2) /\
    Storage.unlock "correct horse" w2 = (Ok true, w3) /\
    _fernet w3 = Some (pbkdf2_hmac_sha256 "correct horse" salt2) /\
    MemoryManager.get "a" PyNone w3
    = (Raise (ReadFailure "a" AuthenticationFailed), w3).
Proof.
  apply (new_password_loses_old_blobs opened "correct horse" "new horse"
           salt salt2 "a" (PyInt 42) token1 "iv1" PyNone);
    try reflexivity.
  vm_compute. discriminate.
Defined.

Lemma encrypt_then_decrypt_witness :
  (exists sealed,
     Storage.encrypt "42" "iv" opened = (Ok sealed, opened) /\
     Storage.decrypt sealed opened = (Ok "42", opened)) /\
  Storage.encrypt "42" "iv" empty_store = (Raise StorageLocked, empty_store) /\
  Storage.decrypt "token" empty_store = (Raise StorageLocked, empty_store).
Proof.
  split.
  - apply (proj1 (encrypt_then_decrypt opened "42" "iv" "token")
             (Reference.derive "correct horse" salt)).
    reflexivity.
  - apply (proj2 (encrypt_then_decrypt empty_store "42" "iv" "token")).
    reflexivity.
Defined.

Lemma set_keeps_other_keys_witness :
  (MemoryManager.get "a" PyNone
     (MemoryManager.set "b" (PyInt 7) token2 "iv2" with_a).2).1
  = (MemoryManager.get "a" PyNone with_a).1.
Proof.
  apply (set_keeps_other_keys with_a "b" (PyInt 7) token2 "iv2" "a" PyNone).
  - discriminate.
  - vm_compute. discriminate.
Defined.

Lemma set_same_identifier_overwrites_witness :
  exists w',
    MemoryManager.set "b" (PyInt 7) token1 "iv2" with_a = (Ok tt, w') /\
    _memory w' !! "a" = Some (token1 +:+ ".dat") /\
    _memory w' !! "b" = Some (token1 +:+ ".dat") /\
    MemoryManager.get "a" PyNone w' = (Ok (PyInt 7), w').
Proof.
  apply (set_same_identifier_overwrites with_a "a" "b" (PyInt 7) token1 "iv2"
           PyNone (Reference.derive "correct horse" salt));
    [exact I|reflexivity..].
Defined.

Lemma delete_keeps_other_keys_witness :
  (MemoryManager.get "b" PyNone (MemoryManager.delete "a" with_ab).2).1
  = (MemoryManager.get "b" PyNone with_ab).1.
Proof.
  apply (delete_keeps_other_keys with_ab "a" "b" PyNone); [|discriminate].
  replace (_memory with_ab)
    with (<["b" := token2 +:+ ".dat"]>
            (<["a" := token1 +:+ ".dat"]> (∅ : gmap string string)))
    by (vm_compute; reflexivity).
  apply one_key_per_blob_insert.
  - apply one_key_per_blob_insert; [apply one_key_per_blob_empty|].
    intros k H. by rewrite lookup_empty in H.
  - intros k [[_ H]|[_ H]]%lookup_insert_Some.
    + vm_compute in H. discriminate.
    + by rewrite lookup_empty in H.
Defined.

Lemma load_error_spec_witness :
  MemoryManager.load "s" with_a
    = Some (Raise (SnapshotNotFound "s"), with_a) /\
  MemoryManager.load "s" snapshot_not_json
    = Some (Raise (JSONDecodeError "Expecting value"), snapshot_not_json) /\
  MemoryManager.load "s" snapshot_null
    = Some (Raise (AttributeError "'NoneType' object has no attribute 'get'"),
            snapshot_null).
Proof.
  split; [|split].
  - apply (proj1 (load_error_spec with_a "s" eq_refl)). reflexivity.
  - apply (proj1 (proj2 (load_error_spec snapshot_not_json "s" eq_refl))
             "?" "Expecting value"); reflexivity.
  - apply (proj2 (proj2 (load_error_spec snapshot_null "s" eq_refl))
             (Reference.dumps PyNone) PyNone); try reflexivity.
    discriminate.
Defined.

Lemma stale_snapshot_read_fails_witness :
  exists w1 w2 w3,
    MemoryManager.save "s" with_a = (Ok tt, w1) /\
    MemoryManager.delete "a" w1 = (Ok true, w2) /\
    MemoryManager.load "s" w2 = Some (Ok tt, w3) /\
    _memory w3 = _memory with_a /\
    MemoryManager.get "a" PyNone w3
    = (Raise (ReadFailure "a"
                (FileNotFoundError
                   (os_path_join (path with_a) (token1 +:+ ".dat")))), w3).
Proof.
  apply (stale_snapshot_read_fails with_a "s" "a" (token1 +:+ ".dat")
           (Reference.seal (Reference.derive "correct horse" salt) "iv1"
              (Reference.dumps (PyInt 42))) PyNone);
    try reflexivity.
  apply dat_ne_state.
Defined.

Lemma snapshot_restores_gets_witness :
  exists w1 w2,
    MemoryManager.save "s" with_a = (Ok tt, w1) /\
    MemoryManager.load "s"
      (MemoryManager.__init__ (files w1) (path w1) (_fernet w1))
    = Some (Ok tt, w2) /\
    _memory w2 = _memory with_a /\
    (MemoryManager.get "a" PyNone w2).1 = (MemoryManager.get "a" PyNone with_a).1.
Proof.
  apply (snapshot_restores_gets with_a "s" "a" PyNone); [reflexivity|].
  vm_compute. discriminate.
Defined.

(** The commands in a directory that holds a salt, a blob and nothing of
    the index: what the user sees. *)
Example cli_session :
  let F := Build_Formatting Reference.dumps Reference.dumps in
  let p := mkProcess with_a [] in
  (Cli.get_value "/vault" "a" "correct horse" p).1 = Exited 1 /\
  events (Cli.get_value "/vault" "a" "correct horse" p).2
    = [Echo true "Key 'a' not found"] /\
  events (Cli.set_value "/vault" "a" "42" "correct horse" token2 "iv" p).2
    = [Echo true "Error: Storage is locked"] /\
  events (Cli.delete "/vault" "a" "correct horse" p).2
    = [Echo true "Key 'a' not found"] /\
  files (world (Cli.clear "/vault" true false "correct horse" p).2)
    = files with_a.
Proof. vm_compute. repeat split. Qed.

End more_scenario_facts.
